(** * SlowDisk: a shallow embedding of [slowdisk.c]

    The kernel module keeps five globals ([minWait], [maxWait],
    [sys_call_table], [orig_sys_write], [orig_sys_read]), scans kernel memory
    for the system call table, swaps two of its slots for its own hooks and
    burns a random number of loop iterations in front of every read and write.

    Conventions of the embedding.
    - [ulong] is the 64-bit unsigned long of x86-64: a [Z] in [0, 2^64), with
      the wrap-around written out by [ulong].  The kernel is built with
      wrapping pointer arithmetic, so [sys_call_table++] wraps the same way.
    - Kernel memory is a map from byte addresses to the [ulong] stored there.
      The module only reads and writes through [ulong*] pointers that differ
      from [PAGE_OFFSET] by multiples of [sizeof(ulong)], so two accessed
      words never overlap.
    - Indexing or calling through a [NULL] pointer, dividing by zero and
      storing to a write-protected address while CR0.WP is set are faults;
      page faults on unmapped addresses are not modelled (every address
      holds a word).
    - [printk] is dropped: the log has no influence on the state.
    - Loops run on fuel; [Spin] is the outcome of a loop that is still
      running when the fuel is gone. *)

From Stdlib Require Import ZArith Lia Bool.

Open Scope Z_scope.

(** ** Machine words *)

Definition ULONG_MAX : Z := 2 ^ 64 - 1.

(** Conversion to [unsigned long]. *)
Definition ulong (z : Z) : Z := z mod 2 ^ 64.

Definition is_ulong (z : Z) : Prop := 0 <= z <= ULONG_MAX.

Definition NULL : Z := 0.

(** ** What the kernel headers provide

    [PAGE_OFFSET], the [__NR_*] numbers and the address of [sys_close] come
    from headers that are not part of the module; the addresses of the two
    hooks are fixed by the loader.  [rodata] tells which addresses lie in
    write-protected pages and [entropy] is the stream that
    [get_random_bytes] hands out, eight bytes at a time. *)

Record platform : Type := mkPlatform {
  PAGE_OFFSET : Z;
  __NR_read : Z;
  __NR_write : Z;
  __NR_close : Z;
  sys_close : Z;
  write_hook_addr : Z;
  read_hook_addr : Z;
  rodata : Z -> bool;
  entropy : nat -> Z
}.

(** ** Outcomes *)

Inductive fault : Type :=
| NullDeref
| WriteProtected
| DivideError.

Inductive result (S A : Type) : Type :=
| Ok (a : A) (s : S)
| Crash (f : fault)
| Spin.

Arguments Ok {S A} a s.
Arguments Crash {S A} f.
Arguments Spin {S A}.

(** ** The monad of kernel code: state, faults and fuel *)

Definition St (S A : Type) : Type := S -> result S A.

Definition ret {S A : Type} (a : A) : St S A := fun k => Ok a k.

Definition bind {S A B : Type} (m : St S A) (f : A -> St S B) : St S B :=
  fun k =>
    match m k with
    | Ok a k' => f a k'
    | Crash e => Crash e
    | Spin => Spin
    end.

Definition gets {S A : Type} (f : S -> A) : St S A := fun k => Ok (f k) k.

Definition modify {S : Type} (f : S -> S) : St S unit := fun k => Ok tt (f k).

Definition raise {S A : Type} (e : fault) : St S A := fun _ => Crash e.

Notation "x <- m ;; f" := (bind m (fun x => f))
  (at level 61, m at next level, right associativity).
Notation "m ;; f" := (bind m (fun _ => f))
  (at level 61, right associativity).

Section SlowDisk.

(** The rest of the system (files, user buffers) that the original handlers
    act on, and what calling the function at a given address does to it. *)
Variable W : Type.
Variable exec : Z -> Z -> Z -> Z -> W -> Z * W.
Variable P : platform.

(** ** State: the module's globals and the machine around them *)

Record kernel : Type := mkKernel {
  minWait : Z;
  maxWait : Z;
  sys_call_table : Z;
  orig_sys_write : Z;
  orig_sys_read : Z;
  cr0 : Z;
  mem : Z -> Z;
  drawn : nat;        (* words taken from the entropy stream so far *)
  spun : Z;           (* ghost: busy-loop bodies executed so far *)
  world : W
}.

Definition set_minWait (v : Z) (k : kernel) : kernel :=
  mkKernel v (maxWait k) (sys_call_table k) (orig_sys_write k)
           (orig_sys_read k) (cr0 k) (mem k) (drawn k) (spun k) (world k).

Definition set_maxWait (v : Z) (k : kernel) : kernel :=
  mkKernel (minWait k) v (sys_call_table k) (orig_sys_write k)
           (orig_sys_read k) (cr0 k) (mem k) (drawn k) (spun k) (world k).

Definition set_sys_call_table (v : Z) (k : kernel) : kernel :=
  mkKernel (minWait k) (maxWait k) v (orig_sys_write k)
           (orig_sys_read k) (cr0 k) (mem k) (drawn k) (spun k) (world k).

Definition set_orig_sys_write (v : Z) (k : kernel) : kernel :=
  mkKernel (minWait k) (maxWait k) (sys_call_table k) v
           (orig_sys_read k) (cr0 k) (mem k) (drawn k) (spun k) (world k).

Definition set_orig_sys_read (v : Z) (k : kernel) : kernel :=
  mkKernel (minWait k) (maxWait k) (sys_call_table k) (orig_sys_write k)
           v (cr0 k) (mem k) (drawn k) (spun k) (world k).

Definition set_cr0 (v : Z) (k : kernel) : kernel :=
  mkKernel (minWait k) (maxWait k) (sys_call_table k) (orig_sys_write k)
           (orig_sys_read k) v (mem k) (drawn k) (spun k) (world k).

Definition set_mem (m : Z -> Z) (k : kernel) : kernel :=
  mkKernel (minWait k) (maxWait k) (sys_call_table k) (orig_sys_write k)
           (orig_sys_read k) (cr0 k) m (drawn k) (spun k) (world k).

Definition set_drawn (n : nat) (k : kernel) : kernel :=
  mkKernel (minWait k) (maxWait k) (sys_call_table k) (orig_sys_write k)
           (orig_sys_read k) (cr0 k) (mem k) n (spun k) (world k).

Definition set_spun (v : Z) (k : kernel) : kernel :=
  mkKernel (minWait k) (maxWait k) (sys_call_table k) (orig_sys_write k)
           (orig_sys_read k) (cr0 k) (mem k) (drawn k) v (world k).

Definition set_world (w : W) (k : kernel) : kernel :=
  mkKernel (minWait k) (maxWait k) (sys_call_table k) (orig_sys_write k)
           (orig_sys_read k) (cr0 k) (mem k) (drawn k) (spun k) w.

(** Kernel code: a computation over [kernel] that returns, faults or spins. *)
Definition M (A : Type) : Type := St kernel A.

(** ** Memory, CR0 and the entropy pool *)

(** Address of [p[i]] for [ulong *p]. *)
Definition slot (p i : Z) : Z := ulong (p + 8 * i).

(** Memory [m] with the word at [a] replaced by [v]. *)
Definition poke (a v : Z) (m : Z -> Z) : Z -> Z :=
  fun x => if x =? a then v else m x.

(** [p[i]] as an rvalue: a fault when [p] is [NULL]; any other pointer is
    taken to point at readable memory. *)
Definition load (p i : Z) : M Z :=
  fun k =>
    if p =? NULL then Crash NullDeref
    else Ok (mem k (slot p i)) k.

(** [p[i] = v]. *)
Definition store (p i v : Z) : M unit :=
  fun k =>
    if p =? NULL then Crash NullDeref
    else if Z.testbit (cr0 k) 16 && rodata P (slot p i) then Crash WriteProtected
    else Ok tt (set_mem (poke (slot p i) v (mem k)) k).

Definition read_cr0 : M Z := gets cr0.

Definition write_cr0 (v : Z) : M unit := modify (set_cr0 v).

(** [get_random_bytes(&wait, sizeof(ulong))]. *)
Definition get_random_bytes : M Z :=
  fun k => Ok (ulong (entropy P (drawn k))) (set_drawn (S (drawn k)) k).

(** ** [random_wait] *)

(** The body of the busy loop, [for(i = 0 ; i < wait ; ++i)], entered with
    the current [i] and [dumbSum]. *)
Fixpoint busy_loop (fuel : nat) (wait i dumbSum : Z) : M Z :=
  match fuel with
  | O => fun _ => Spin
  | S fuel' =>
      if i <? wait then
        modify (fun k => set_spun (spun k + 1) k) ;;
        let dumbSum1 := ulong (dumbSum + i) in
        let dumbSum2 := ulong (dumbSum1 * (i / 2)) in
        busy_loop fuel' wait (ulong (i + 1)) dumbSum2
      else ret dumbSum
  end.

Definition random_wait (fuel : nat) : M Z :=
  hi <- gets maxWait ;;
  lo <- gets minWait ;;
  let waitInterval := ulong (hi - lo) in
  r <- get_random_bytes ;;
  if waitInterval =? 0 then raise DivideError
  else
    let wait := ulong (r mod waitInterval + lo) in
    busy_loop fuel wait 0 0 ;;
    ret wait.

(** ** [get_syscall_table] *)

(** The [while] loop of [get_syscall_table]. *)
Fixpoint scan (fuel : nat) : M unit :=
  match fuel with
  | O => fun _ => Spin
  | S fuel' =>
      p <- gets sys_call_table ;;
      if p <? ULONG_MAX then
        v <- load p (__NR_close P) ;;
        if v =? sys_close P then ret tt
        else modify (set_sys_call_table (ulong (p + 8))) ;; scan fuel'
      else modify (set_sys_call_table NULL)
  end.

Definition get_syscall_table (fuel : nat) : M unit :=
  modify (set_sys_call_table (PAGE_OFFSET P)) ;;
  scan fuel.

(** ** [slowdisk_init] and [slowdisk_exit] *)

(** Lines 51-58: the check of the configured range. *)
Definition normalize_wait_range : M unit :=
  lo <- gets minWait ;;
  hi <- gets maxWait ;;
  if (lo <? 0) || (lo >? hi) then
    modify (set_minWait 500) ;; modify (set_maxWait 1000)
  else if hi =? 0 then modify (set_maxWait 1)
  else ret tt.

(** [cr0 & ~0x10000] *)
Definition clear_wp (c : Z) : Z := Z.land c (ulong (Z.lnot 65536)).

(** Lines 70-76: save the two entries and put the hooks in their place. *)
Definition install_hooks : M unit :=
  t <- gets sys_call_table ;;
  r <- load t (__NR_read P) ;;
  modify (set_orig_sys_read r) ;;
  w <- load t (__NR_write P) ;;
  modify (set_orig_sys_write w) ;;
  c <- read_cr0 ;;
  write_cr0 (clear_wp c) ;;
  store t (__NR_write P) (write_hook_addr P) ;;
  store t (__NR_read P) (read_hook_addr P) ;;
  write_cr0 c.

Definition slowdisk_init (fuel : nat) : M Z :=
  normalize_wait_range ;;
  get_syscall_table fuel ;;
  t <- gets sys_call_table ;;
  if t =? NULL then ret (-1)
  else
    install_hooks ;;
    hi <- gets maxWait ;;
    modify (set_maxWait (ulong (hi + 1))) ;;
    ret 0.

Definition slowdisk_exit : M unit :=
  c <- read_cr0 ;;
  write_cr0 (clear_wp c) ;;
  t <- gets sys_call_table ;;
  w <- gets orig_sys_write ;;
  store t (__NR_write P) w ;;
  r <- gets orig_sys_read ;;
  store t (__NR_read P) r ;;
  write_cr0 c.

(** ** The hooks *)

(** A call through a [rw_fn_t] function pointer: a fault when the pointer
    is [NULL], and otherwise what the function at that address does. *)
Definition call (f fd buf count : Z) : M Z :=
  fun k =>
    if f =? NULL then Crash NullDeref
    else
      let (r, w) := exec f fd buf count (world k) in
      Ok r (set_world w k).

Definition write_hook (fuel : nat) (fd buf count : Z) : M Z :=
  random_wait fuel ;;
  f <- gets orig_sys_write ;;
  call f fd buf count.

Definition read_hook (fuel : nat) (fd buf count : Z) : M Z :=
  random_wait fuel ;;
  f <- gets orig_sys_read ;;
  call f fd buf count.

(** ** Summaries of the straight-line code

    Closed forms of what the code above leaves behind, used to state the
    properties; each is proved equal to a run of the code it summarises. *)

(** The value line 114 assigns to [wait]. *)
Definition chosen_wait (k : kernel) : Z :=
  let waitInterval := ulong (maxWait k - minWait k) in
  ulong (ulong (entropy P (drawn k)) mod waitInterval + minWait k).

(** The state after a [random_wait] that returned. *)
Definition delayed (k : kernel) : kernel :=
  set_spun (spun k + chosen_wait k) (set_drawn (S (drawn k)) k).

(** The state after lines 51-58. *)
Definition normalized (k : kernel) : kernel :=
  if (minWait k <? 0) || (minWait k >? maxWait k) then
    set_maxWait 1000 (set_minWait 500 k)
  else if maxWait k =? 0 then set_maxWait 1 k
  else k.

(** The state after lines 70-76, for a table that is not [NULL]. *)
Definition hooked (k : kernel) : kernel :=
  let t := sys_call_table k in
  mkKernel (minWait k) (maxWait k) t
           (mem k (slot t (__NR_write P))) (mem k (slot t (__NR_read P)))
           (cr0 k)
           (poke (slot t (__NR_read P)) (read_hook_addr P)
              (poke (slot t (__NR_write P)) (write_hook_addr P) (mem k)))
           (drawn k) (spun k) (world k).

(** The state after [slowdisk_exit], for a table that is not [NULL]. *)
Definition unhooked (k : kernel) : kernel :=
  let t := sys_call_table k in
  set_mem (poke (slot t (__NR_read P)) (orig_sys_read k)
             (poke (slot t (__NR_write P)) (orig_sys_write k) (mem k))) k.

(** Iterations of the scan before a pointer that started at [p] wraps
    around to [NULL]. *)
Definition steps_to_wrap (p : Z) : Z := ulong (- p) / 8.

(** The module's globals agree. *)
Definition same_globals (k k' : kernel) : Prop :=
  minWait k' = minWait k /\ maxWait k' = maxWait k /\
  sys_call_table k' = sys_call_table k /\
  orig_sys_write k' = orig_sys_write k /\ orig_sys_read k' = orig_sys_read k.

(** The machine around the module agrees, word for word. *)
Definition same_machine (k k' : kernel) : Prop :=
  cr0 k' = cr0 k /\ (forall a, mem k' a = mem k a) /\
  drawn k' = drawn k /\ spun k' = spun k /\ world k' = world k.

(** The pointer of the scan after [n] increments from [p]. *)
Definition candidate (p : Z) (n : nat) : Z := ulong (p + 8 * Z.of_nat n).

(** In memory [m], the [n]-th pointer from [p] is the first whose anchor
    slot holds the address of [sys_close], and the scan gets that far: every
    pointer up to it passes the loop condition and is not [NULL]. *)
Definition first_anchor (m : Z -> Z) (p : Z) (n : nat) : Prop :=
  (forall j : nat, (j <= n)%nat ->
     candidate p j <> NULL /\ candidate p j < ULONG_MAX) /\
  (forall j : nat, (j < n)%nat ->
     m (slot (candidate p j) (__NR_close P)) <> sys_close P) /\
  m (slot (candidate p n) (__NR_close P)) = sys_close P.

(** The module loaded afresh with [minWait=lo maxWait=hi] on the machine as
    [k] left it: the statics are back at their initial values. *)
Definition reloaded (lo hi : Z) (k : kernel) : kernel :=
  mkKernel lo hi NULL 0 0 (cr0 k) (mem k) (drawn k) (spun k) (world k).

End SlowDisk.

Arguments minWait {W} k.
Arguments maxWait {W} k.
Arguments sys_call_table {W} k.
Arguments orig_sys_write {W} k.
Arguments orig_sys_read {W} k.
Arguments cr0 {W} k.
Arguments mem {W} k a.
Arguments drawn {W} k.
Arguments spun {W} k.
Arguments world {W} k.
Arguments set_minWait {W} v k.
Arguments set_maxWait {W} v k.
Arguments set_sys_call_table {W} v k.
Arguments set_orig_sys_write {W} v k.
Arguments set_orig_sys_read {W} v k.
Arguments set_cr0 {W} v k.
Arguments set_mem {W} m k.
Arguments set_drawn {W} n k.
Arguments set_spun {W} v k.
Arguments set_world {W} w k.
Arguments load {W} p i k.
Arguments store {W} P p i v k.
Arguments get_random_bytes {W} P k.
Arguments busy_loop {W} fuel wait i dumbSum k.
Arguments random_wait {W} P fuel k.
Arguments scan {W} P fuel k.
Arguments get_syscall_table {W} P fuel k.
Arguments normalize_wait_range {W} k.
Arguments install_hooks {W} P k.
Arguments slowdisk_init {W} P fuel k.
Arguments slowdisk_exit {W} P k.
Arguments call {W} exec f fd buf count k.
Arguments write_hook {W} exec P fuel fd buf count k.
Arguments read_hook {W} exec P fuel fd buf count k.
Arguments chosen_wait {W} P k.
Arguments delayed {W} P k.
Arguments normalized {W} k.
Arguments hooked {W} P k.
Arguments unhooked {W} P k.
Arguments same_globals {W} k k'.
Arguments same_machine {W} k k'.
Arguments reloaded {W} lo hi k.

(** The value a computation returned, if it returned. *)
Definition value_of {S A : Type} (r : result S A) : option A :=
  match r with
  | Ok a _ => Some a
  | _ => None
  end.

(** The state a computation left, or [k] if it did not return. *)
Definition state_of {S A : Type} (k : S) (r : result S A) : S :=
  match r with
  | Ok _ k' => k'
  | _ => k
  end.

(** ** A concrete machine

    The constants of an x86-64 kernel of the module's time, a toy
    rest-of-the-system (the number of bytes moved so far) and small memories
    to run the code on. *)

Definition x86_64 (base : Z) (e : nat -> Z) : platform :=
  {| PAGE_OFFSET := base;
     __NR_read := 0;
     __NR_write := 1;
     __NR_close := 3;
     sys_close := 0xffffffff8111f0a0;
     write_hook_addr := 0xffffffffa0000090;
     read_hook_addr := 0xffffffffa00000c0;
     rodata := fun a => 0xffff880000000000 <=? a;
     entropy := e |}.

Definition linux_base : Z := 0xffff880000000000.

(** Every handler moves [count] bytes and says so. *)
Definition toy_exec (f fd buf count : Z) (w : Z) : Z * Z := (count, w + count).

(** The system call table sits four words above [linux_base]. *)
Definition toy_table : Z := linux_base + 32.

Definition toy_mem (a : Z) : Z :=
  if a =? toy_table then 0xffffffff8112a000           (* sys_read *)
  else if a =? toy_table + 8 then 0xffffffff8112a100  (* sys_write *)
  else if a =? toy_table + 24 then 0xffffffff8111f0a0 (* sys_close *)
  else 0.

(** A memory without any word equal to the address of [sys_close]. *)
Definition blank_mem (a : Z) : Z := 0.

(** The module right after [insmod slowdisk.ko minWait=lo maxWait=hi]. *)
Definition loaded (lo hi : Z) (m : Z -> Z) : kernel Z :=
  mkKernel Z lo hi NULL 0 0 0x80050033 m 0 0 0.

(** The state [slowdisk_init] leaves behind. *)
Definition after_init (P : platform) (fuel : nat) (k : kernel Z) : kernel Z :=
  state_of k (slowdisk_init P fuel k).

(** * Properties *)

(** ** Words *)

Lemma ulong_range (z : Z) : is_ulong (ulong z).
Proof.
  unfold is_ulong, ulong, ULONG_MAX.
  pose proof (Z.mod_pos_bound z (2 ^ 64) ltac:(lia)). lia.
Qed.

Lemma ulong_small (z : Z) : is_ulong z -> ulong z = z.
Proof.
  unfold is_ulong, ulong, ULONG_MAX. intros H.
  apply Z.mod_small. lia.
Qed.

Lemma clear_wp_bit (c : Z) : Z.testbit (clear_wp c) 16 = false.
Proof.
  unfold clear_wp. rewrite Z.land_spec.
  replace (Z.testbit (ulong (Z.lnot 65536)) 16) with false by reflexivity.
  apply andb_false_r.
Qed.

Lemma ulong_aligned (z : Z) : z mod 8 = 0 -> ulong z mod 8 = 0.
Proof.
  intros H. unfold ulong. rewrite Z.mod_mod_divide; [exact H|].
  exists (2 ^ 61). reflexivity.
Qed.

Lemma poke_same (a v : Z) (m : Z -> Z) : poke a v m a = v.
Proof. unfold poke. now rewrite Z.eqb_refl. Qed.

Lemma poke_other (a v : Z) (m : Z -> Z) (x : Z) : x <> a -> poke a v m x = m x.
Proof. unfold poke. intros H. now rewrite (proj2 (Z.eqb_neq x a) H). Qed.

(** Unfolds the monad so that a run of straight-line code computes. *)
Ltac run :=
  unfold bind, ret, gets, modify, raise, read_cr0, write_cr0; simpl.

Section Delay.

Variable W : Type.
Variable P : platform.

Implicit Types k : kernel W.

(** ** The busy loop *)

Lemma set_spun_same k : set_spun (spun k + 0) k = k.
Proof. destruct k; unfold set_spun; simpl. now rewrite Z.add_0_r. Qed.

(** From [i], the loop runs its body [wait - i] times and then leaves. *)
Lemma busy_loop_runs (wait : Z) :
  is_ulong wait ->
  forall (n fuel : nat) (i d : Z) k,
    0 <= i -> i + Z.of_nat n = wait -> (n < fuel)%nat ->
    exists d', busy_loop fuel wait i d k
               = Ok d' (set_spun (spun k + Z.of_nat n) k).
Proof.
  intros Hw. induction n as [|n IH]; intros fuel i d k Hi Hn Hf.
  - destruct fuel as [|fuel]; [lia|]. simpl.
    replace (i <? wait) with false by (symmetry; apply Z.ltb_ge; lia).
    exists d. unfold ret. now rewrite set_spun_same.
  - destruct fuel as [|fuel]; [lia|]. simpl.
    replace (i <? wait) with true by (symmetry; apply Z.ltb_lt; lia).
    unfold bind, modify.
    assert (Hi1 : ulong (i + 1) = i + 1).
    { apply ulong_small. unfold is_ulong in *. lia. }
    rewrite Hi1.
    destruct (IH fuel (i + 1) (ulong (ulong (d + i) * (i / 2)))
                (set_spun (spun k + 1) k)) as [d' Hd']; try lia.
    exists d'. rewrite Hd'. f_equal. unfold set_spun; simpl. f_equal. lia.
Qed.

(** However much fuel there is, a loop that leaves has run its body
    [wait - i] times. *)
Lemma busy_loop_counts (wait : Z) :
  is_ulong wait ->
  forall (fuel : nat) (i d : Z) k (d' : Z) k',
    0 <= i <= wait ->
    busy_loop fuel wait i d k = Ok d' k' ->
    k' = set_spun (spun k + (wait - i)) k.
Proof.
  intros Hw. induction fuel as [|fuel IH]; intros i d k d' k' Hi H.
  - discriminate.
  - simpl in H. destruct (i <? wait) eqn:E.
    + apply Z.ltb_lt in E. unfold bind, modify in H.
      assert (Hi1 : ulong (i + 1) = i + 1).
      { apply ulong_small. unfold is_ulong in *. lia. }
      rewrite Hi1 in H. apply IH in H; [|lia].
      rewrite H. unfold set_spun; simpl. f_equal. lia.
    + apply Z.ltb_ge in E. unfold ret in H. inversion H; subst.
      replace (wait - i) with 0 by lia. symmetry. apply set_spun_same.
Qed.

(** ** [random_wait] *)

Lemma chosen_wait_range k : is_ulong (chosen_wait P k).
Proof. unfold chosen_wait. apply ulong_range. Qed.

(** With a zero interval the modulo of line 114 traps. *)
Lemma random_wait_zero_interval (fuel : nat) k :
  ulong (maxWait k - minWait k) = 0 ->
  random_wait P fuel k = Crash DivideError.
Proof.
  intros H. unfold random_wait, get_random_bytes. run.
  now rewrite H.
Qed.

(** With a non-zero interval and fuel for the loop, [random_wait] returns
    the chosen wait after exactly that many loop bodies. *)
Lemma random_wait_returns (fuel : nat) k :
  ulong (maxWait k - minWait k) <> 0 ->
  (Z.to_nat (chosen_wait P k) < fuel)%nat ->
  random_wait P fuel k = Ok (chosen_wait P k) (delayed P k).
Proof.
  intros H Hf. unfold random_wait, get_random_bytes. run.
  rewrite (proj2 (Z.eqb_neq _ _) H).
  pose proof (chosen_wait_range k) as Hr.
  destruct (busy_loop_runs (chosen_wait P k) Hr (Z.to_nat (chosen_wait P k))
              fuel 0 0 (set_drawn (S (drawn k)) k)) as [d' Hd'];
    [lia | unfold is_ulong in Hr; lia | exact Hf |].
  unfold chosen_wait in Hd' at 1. simpl in Hd'. rewrite Hd'.
  unfold delayed. f_equal. simpl. f_equal.
  unfold is_ulong in Hr. lia.
Qed.

(** Whatever the fuel, a [random_wait] that returns has returned the chosen
    wait and left the delayed state. *)
Lemma random_wait_inv (fuel : nat) k (v : Z) k' :
  random_wait P fuel k = Ok v k' ->
  ulong (maxWait k - minWait k) <> 0 /\
  v = chosen_wait P k /\ k' = delayed P k.
Proof.
  unfold random_wait, get_random_bytes. run.
  destruct (ulong (maxWait k - minWait k) =? 0) eqn:E; [discriminate|].
  apply Z.eqb_neq in E.
  destruct (busy_loop fuel _ 0 0 (set_drawn (S (drawn k)) k))
    as [d' k1| |] eqn:L; try discriminate.
  intros H. inversion H; subst. clear H.
  split; [exact E|]. split; [reflexivity|].
  apply busy_loop_counts in L.
  - rewrite L. unfold delayed, chosen_wait. simpl. f_equal. f_equal. lia.
  - apply ulong_range.
  - pose proof (ulong_range
      (ulong (entropy P (drawn k)) mod ulong (maxWait k - minWait k)
       + minWait k)) as Hr.
    unfold is_ulong in Hr. lia.
Qed.

End Delay.

Section Bounds.

Variable W : Type.
Variable P : platform.

Implicit Types k : kernel W.

(** With [minWait < maxWait] the chosen wait lies in [[minWait, maxWait)]. *)
Lemma chosen_wait_bounds k :
  is_ulong (minWait k) -> is_ulong (maxWait k) ->
  minWait k < maxWait k ->
  minWait k <= chosen_wait P k < maxWait k.
Proof.
  unfold is_ulong, ULONG_MAX. intros Hlo Hhi Hlt. unfold chosen_wait.
  assert (Hi : ulong (maxWait k - minWait k) = maxWait k - minWait k).
  { apply ulong_small. unfold is_ulong, ULONG_MAX. lia. }
  rewrite Hi.
  pose proof (Z.mod_pos_bound (ulong (entropy P (drawn k)))
                (maxWait k - minWait k) ltac:(lia)) as Hm.
  rewrite ulong_small; [lia|]. unfold is_ulong, ULONG_MAX. lia.
Qed.

(** When the increment of line 80 has wrapped [maxWait] to zero and
    [minWait] is not zero, the interval is [2^64 - minWait] and the chosen
    wait is at least [minWait]. *)
Lemma chosen_wait_bounds_wrapped k :
  is_ulong (minWait k) -> 0 < minWait k -> maxWait k = 0 ->
  minWait k <= chosen_wait P k <= ULONG_MAX.
Proof.
  unfold is_ulong, ULONG_MAX. intros Hlo Hpos Hhi. unfold chosen_wait.
  rewrite Hhi.
  assert (Hi : ulong (0 - minWait k) = 2 ^ 64 - minWait k).
  { unfold ulong.
    replace (0 - minWait k) with ((2 ^ 64 - minWait k) + (-1) * 2 ^ 64) by lia.
    rewrite Z.mod_add by lia. apply Z.mod_small. lia. }
  rewrite Hi.
  pose proof (Z.mod_pos_bound (ulong (entropy P (drawn k)))
                (2 ^ 64 - minWait k) ltac:(lia)) as Hm.
  rewrite ulong_small; [lia|]. unfold is_ulong, ULONG_MAX. lia.
Qed.

(** ** Lines 51-58 *)

Lemma normalize_wait_range_eq k :
  normalize_wait_range k = Ok tt (normalized k).
Proof.
  unfold normalize_wait_range, normalized. run.
  destruct ((minWait k <? 0) || (minWait k >? maxWait k)); [reflexivity|].
  destruct (maxWait k =? 0); reflexivity.
Qed.

(** Normalisation only ever touches the two bounds. *)
Lemma normalized_frame k :
  sys_call_table (normalized k) = sys_call_table k /\
  orig_sys_write (normalized k) = orig_sys_write k /\
  orig_sys_read (normalized k) = orig_sys_read k /\
  same_machine k (normalized k).
Proof.
  unfold normalized, same_machine.
  destruct ((minWait k <? 0) || (minWait k >? maxWait k));
    [|destruct (maxWait k =? 0)]; simpl; repeat split; reflexivity.
Qed.

(** Normalised bounds are ordered and the upper one is at least 1. *)
Lemma normalized_ordered k :
  is_ulong (minWait k) ->
  0 <= minWait (normalized k) <= maxWait (normalized k) /\
  1 <= maxWait (normalized k).
Proof.
  unfold is_ulong, normalized. intros Hlo.
  destruct (minWait k <? 0) eqn:E0; simpl; [lia|].
  destruct (minWait k >? maxWait k) eqn:E1; simpl; [lia|].
  destruct (maxWait k =? 0) eqn:E2; simpl.
  - apply Z.eqb_eq in E2. lia.
  - apply Z.eqb_neq in E2. lia.
Qed.

(** A valid, non-zero range goes through unchanged. *)
Lemma normalized_valid k :
  0 <= minWait k <= maxWait k -> maxWait k <> 0 -> normalized k = k.
Proof.
  unfold normalized. intros H H0.
  replace (minWait k <? 0) with false by (symmetry; apply Z.ltb_ge; lia).
  replace (minWait k >? maxWait k) with false by (symmetry; lia).
  simpl. now rewrite (proj2 (Z.eqb_neq _ _) H0).
Qed.

End Bounds.

Section Table.

Variable W : Type.
Variable P : platform.

Implicit Types k : kernel W.

(** ** The scan of [get_syscall_table] *)

(** The scan writes nothing but the [sys_call_table] variable. *)
Lemma scan_frame (fuel : nat) :
  forall k k', scan P fuel k = Ok tt k' ->
               k' = set_sys_call_table (sys_call_table k') k.
Proof.
  induction fuel as [|fuel IH]; intros k k' H; [discriminate|].
  simpl in H. unfold load in H. revert H. run.
  destruct (sys_call_table k <? ULONG_MAX).
  - destruct (sys_call_table k =? NULL); [discriminate|].
    destruct (mem k (slot (sys_call_table k) (__NR_close P)) =? sys_close P).
    + intros H. inversion H; subst. destruct k'; reflexivity.
    + intros H. apply IH in H. rewrite H. reflexivity.
  - intros H. inversion H. reflexivity.
Qed.

(** A scan that returns either gave up with [NULL] or stopped at a pointer
    whose anchor slot holds the address of [sys_close]. *)
Lemma scan_sound (fuel : nat) :
  forall k k', scan P fuel k = Ok tt k' ->
    sys_call_table k' = NULL \/
    mem k (slot (sys_call_table k') (__NR_close P)) = sys_close P.
Proof.
  induction fuel as [|fuel IH]; intros k k' H; [discriminate|].
  simpl in H. unfold load in H. revert H. run.
  destruct (sys_call_table k <? ULONG_MAX).
  - destruct (sys_call_table k =? NULL); [discriminate|].
    destruct (mem k (slot (sys_call_table k) (__NR_close P)) =? sys_close P)
      eqn:E.
    + intros H. inversion H; subst. right. now apply Z.eqb_eq.
    + intros H. apply IH in H. exact H.
  - intros H. inversion H. now left.
Qed.

(** From a pointer that is a multiple of the word size, the loop condition
    [(ulong)sys_call_table < ULONG_MAX] never fails: the pointer stays a
    multiple of 8 and [ULONG_MAX] is not one.  So such a scan never gives
    up with [NULL]. *)
Lemma scan_aligned_never_absent (fuel : nat) :
  forall k k',
    is_ulong (sys_call_table k) -> sys_call_table k mod 8 = 0 ->
    scan P fuel k = Ok tt k' -> sys_call_table k' <> NULL.
Proof.
  induction fuel as [|fuel IH]; intros k k' Hr Ha H; [discriminate|].
  simpl in H. unfold load in H. revert H. run.
  assert (Hlt : sys_call_table k < ULONG_MAX).
  { unfold is_ulong, ULONG_MAX in *.
    assert (sys_call_table k <> 2 ^ 64 - 1); [|lia].
    intros E. rewrite E in Ha. discriminate. }
  rewrite (proj2 (Z.ltb_lt _ _) Hlt).
  destruct (sys_call_table k =? NULL) eqn:E0; [discriminate|].
  apply Z.eqb_neq in E0.
  destruct (mem k (slot (sys_call_table k) (__NR_close P)) =? sys_close P).
  - intros H. inversion H; subst. exact E0.
  - intros H. apply IH in H; [exact H | apply ulong_range |].
    simpl. apply ulong_aligned.
    rewrite Z.add_mod by lia. rewrite Ha. reflexivity.
Qed.

(** Without an anchor anywhere, a scan from a multiple of the word size
    walks up to the top of the address space, wraps to [NULL] and faults
    there; with less fuel than that it is still walking. *)
Lemma scan_no_anchor (fuel : nat) :
  forall k,
    is_ulong (sys_call_table k) -> sys_call_table k mod 8 = 0 ->
    (forall p, mem k (slot p (__NR_close P)) <> sys_close P) ->
    scan P fuel k
    = if Z.of_nat fuel <=? steps_to_wrap (sys_call_table k)
      then Spin else Crash NullDeref.
Proof.
  induction fuel as [|fuel IH]; intros k Hr Ha Hno.
  - simpl. unfold steps_to_wrap.
    pose proof (ulong_range (- sys_call_table k)) as Hu. unfold is_ulong in Hu.
    assert (0 <= ulong (- sys_call_table k) / 8) by (apply Z.div_pos; lia).
    now rewrite (proj2 (Z.leb_le _ _) H).
  - rewrite Nat2Z.inj_succ. unfold Z.succ.
    cbn [scan]. unfold load. run.
    assert (Hlt : sys_call_table k < ULONG_MAX).
    { unfold is_ulong, ULONG_MAX in *.
      assert (sys_call_table k <> 2 ^ 64 - 1); [|lia].
      intros E. rewrite E in Ha. discriminate. }
    rewrite (proj2 (Z.ltb_lt _ _) Hlt).
    destruct (sys_call_table k =? NULL) eqn:E0.
    + apply Z.eqb_eq in E0. rewrite E0. unfold NULL, steps_to_wrap.
      replace (ulong (- 0) / 8) with 0 by reflexivity.
      replace (Z.of_nat fuel + 1 <=? 0) with false
        by (symmetry; apply Z.leb_gt; lia).
      reflexivity.
    + apply Z.eqb_neq in E0. unfold NULL in E0.
      rewrite (proj2 (Z.eqb_neq _ _) (Hno (sys_call_table k))).
      assert (Hq : sys_call_table k = 8 * (sys_call_table k / 8)).
      { pose proof (Z.div_mod (sys_call_table k) 8 ltac:(lia)). lia. }
      set (q := sys_call_table k / 8) in *.
      assert (Hq' : 0 < q < 2 ^ 61).
      { unfold is_ulong, ULONG_MAX in Hr. lia. }
      assert (Hs : steps_to_wrap (sys_call_table k) = 2 ^ 61 - q).
      { unfold steps_to_wrap, ulong. rewrite Hq.
        replace (- (8 * q)) with ((2 ^ 64 - 8 * q) + (-1) * 2 ^ 64) by lia.
        rewrite Z.mod_add by lia. rewrite Z.mod_small by lia.
        replace (2 ^ 64 - 8 * q) with ((2 ^ 61 - q) * 8) by lia.
        apply Z.div_mul. lia. }
      assert (Hn : ulong (sys_call_table k + 8) = ulong (8 * (q + 1))).
      { f_equal. lia. }
      rewrite IH; simpl.
      * rewrite Hs, Hn.
        assert (Hs' : steps_to_wrap (ulong (8 * (q + 1))) = 2 ^ 61 - q - 1).
        { unfold steps_to_wrap.
          destruct (Z.eq_dec (q + 1) (2 ^ 61)) as [Et|Et].
          - rewrite Et. replace (2 ^ 61 - q - 1) with 0 by lia. reflexivity.
          - rewrite (ulong_small (8 * (q + 1)))
              by (unfold is_ulong, ULONG_MAX; lia).
            unfold ulong.
            replace (- (8 * (q + 1)))
              with ((2 ^ 64 - 8 * (q + 1)) + (-1) * 2 ^ 64) by lia.
            rewrite Z.mod_add by lia. rewrite Z.mod_small by lia.
            replace (2 ^ 64 - 8 * (q + 1)) with ((2 ^ 61 - q - 1) * 8) by lia.
            apply Z.div_mul. lia. }
        rewrite Hs'.
        destruct (Z.leb_spec (Z.of_nat fuel) (2 ^ 61 - q - 1));
          destruct (Z.leb_spec (Z.of_nat fuel + 1) (2 ^ 61 - q));
          try reflexivity; lia.
      * apply ulong_range.
      * rewrite Hn. apply ulong_aligned.
        rewrite Z.mul_comm. apply Z.mod_mul. lia.
      * exact Hno.
Qed.

End Table.

Section Lifecycle.

Variable W : Type.
Variable P : platform.

Implicit Types k : kernel W.

#[local] Arguments Z.testbit : simpl never.

Lemma get_syscall_table_frame (fuel : nat) k k' :
  get_syscall_table P fuel k = Ok tt k' ->
  k' = set_sys_call_table (sys_call_table k') k.
Proof.
  unfold get_syscall_table. run. intros H.
  apply scan_frame in H. rewrite H. reflexivity.
Qed.

(** With a page-aligned (indeed, word-aligned) [PAGE_OFFSET] the locator
    never comes back with [NULL]. *)
Lemma get_syscall_table_aligned_never_absent (fuel : nat) k k' :
  is_ulong (PAGE_OFFSET P) -> PAGE_OFFSET P mod 8 = 0 ->
  get_syscall_table P fuel k = Ok tt k' -> sys_call_table k' <> NULL.
Proof.
  unfold get_syscall_table. run. intros Hr Ha H.
  apply scan_aligned_never_absent in H; assumption.
Qed.

(** ** Patching and restoring *)

Lemma install_hooks_eq k :
  sys_call_table k <> NULL -> install_hooks P k = Ok tt (hooked P k).
Proof.
  intros Ht. unfold install_hooks, load, store. run.
  rewrite (proj2 (Z.eqb_neq _ _) Ht). simpl.
  rewrite clear_wp_bit. simpl. rewrite clear_wp_bit. reflexivity.
Qed.

Lemma slowdisk_exit_eq k :
  sys_call_table k <> NULL -> slowdisk_exit P k = Ok tt (unhooked P k).
Proof.
  intros Ht. unfold slowdisk_exit, store. run.
  rewrite (proj2 (Z.eqb_neq _ _) Ht). simpl.
  rewrite clear_wp_bit. simpl. rewrite clear_wp_bit.
  unfold unhooked, set_mem. simpl. reflexivity.
Qed.

(** [slowdisk_exit] has no check in front of its stores. *)
Lemma slowdisk_exit_null k :
  sys_call_table k = NULL -> slowdisk_exit P k = Crash NullDeref.
Proof.
  intros Ht. unfold slowdisk_exit, store. run.
  rewrite Ht. reflexivity.
Qed.

(** Restoring what [install_hooks] saved gives back the memory it found. *)
Lemma unhooked_hooked_mem k (a : Z) :
  mem (unhooked P (hooked P k)) a = mem k a.
Proof.
  unfold unhooked, hooked. simpl. unfold poke.
  destruct (a =? slot (sys_call_table k) (__NR_read P)) eqn:Er.
  - apply Z.eqb_eq in Er. now rewrite Er.
  - destruct (a =? slot (sys_call_table k) (__NR_write P)) eqn:Ew.
    + apply Z.eqb_eq in Ew. now rewrite Ew.
    + reflexivity.
Qed.

(** Restoring twice writes the same two words again. *)
Lemma unhooked_twice_mem k (a : Z) :
  mem (unhooked P (unhooked P k)) a = mem (unhooked P k) a.
Proof.
  unfold unhooked. simpl. unfold poke.
  destruct (a =? slot (sys_call_table k) (__NR_read P)); [reflexivity|].
  destruct (a =? slot (sys_call_table k) (__NR_write P)); reflexivity.
Qed.

(** ** [slowdisk_init], by the outcome of the locator *)

Lemma slowdisk_init_absent (fuel : nat) k k2 :
  get_syscall_table P fuel (normalized k) = Ok tt k2 ->
  sys_call_table k2 = NULL ->
  slowdisk_init P fuel k = Ok (-1) k2.
Proof.
  intros Hg Ht. unfold slowdisk_init.
  unfold bind at 1. rewrite normalize_wait_range_eq.
  unfold bind at 1. rewrite Hg. run. rewrite Ht. reflexivity.
Qed.

Lemma slowdisk_init_found (fuel : nat) k k2 :
  get_syscall_table P fuel (normalized k) = Ok tt k2 ->
  sys_call_table k2 <> NULL ->
  slowdisk_init P fuel k
  = Ok 0 (set_maxWait (ulong (maxWait k2 + 1)) (hooked P k2)).
Proof.
  intros Hg Ht. unfold slowdisk_init.
  unfold bind at 1. rewrite normalize_wait_range_eq.
  unfold bind at 1. rewrite Hg.
  unfold bind at 1. unfold gets at 1.
  rewrite (proj2 (Z.eqb_neq _ _) Ht).
  unfold bind at 1. rewrite (install_hooks_eq k2 Ht). reflexivity.
Qed.

(** A run of [slowdisk_init] that returns went one of these two ways. *)
Lemma slowdisk_init_inv (fuel : nat) k (r : Z) k' :
  slowdisk_init P fuel k = Ok r k' ->
  exists k2,
    get_syscall_table P fuel (normalized k) = Ok tt k2 /\
    ((sys_call_table k2 = NULL /\ r = -1 /\ k' = k2) \/
     (sys_call_table k2 <> NULL /\ r = 0 /\
      k' = set_maxWait (ulong (maxWait k2 + 1)) (hooked P k2))).
Proof.
  intros H.
  destruct (get_syscall_table P fuel (normalized k)) as [[] k2| |] eqn:Hg.
  - exists k2. split; [reflexivity|].
    destruct (Z.eq_dec (sys_call_table k2) NULL) as [Ht|Ht].
    + rewrite (slowdisk_init_absent fuel k k2 Hg Ht) in H.
      inversion H; subst. left. repeat split; auto.
    + rewrite (slowdisk_init_found fuel k k2 Hg Ht) in H.
      inversion H; subst. right. repeat split; auto.
  - unfold slowdisk_init in H. unfold bind at 1 in H.
    rewrite normalize_wait_range_eq in H. unfold bind at 1 in H.
    rewrite Hg in H. discriminate.
  - unfold slowdisk_init in H. unfold bind at 1 in H.
    rewrite normalize_wait_range_eq in H. unfold bind at 1 in H.
    rewrite Hg in H. discriminate.
Qed.

(** After a successful [slowdisk_init] the bounds are the normalised lower
    bound and the normalised upper bound plus one, wrapped. *)
Lemma slowdisk_init_bounds (fuel : nat) k k' :
  slowdisk_init P fuel k = Ok 0 k' ->
  minWait k' = minWait (normalized k) /\
  maxWait k' = ulong (maxWait (normalized k) + 1) /\
  sys_call_table k' <> NULL.
Proof.
  intros H. apply slowdisk_init_inv in H.
  destruct H as [k2 [Hg [[_ [H _]]|[Ht [_ Hk]]]]]; [discriminate|].
  apply get_syscall_table_frame in Hg.
  rewrite Hk. simpl. rewrite Hg. simpl. auto.
Qed.

End Lifecycle.

Section Installed.

Variable W : Type.
Variable P : platform.

Implicit Types k : kernel W.

(** ** The interval after a successful load

    The increment of line 80 wraps when the normalised [maxWait] is
    [ULONG_MAX]; the interval is zero exactly for [minWait = 0],
    [maxWait = ULONG_MAX]. *)

Lemma normalized_upper k :
  is_ulong (maxWait k) -> maxWait (normalized k) <= ULONG_MAX.
Proof.
  unfold normalized, is_ulong, ULONG_MAX. intros H.
  destruct ((minWait k <? 0) || (minWait k >? maxWait k)); simpl; [lia|].
  destruct (maxWait k =? 0); simpl; lia.
Qed.

Lemma normalized_full_range k :
  minWait (normalized k) = 0 -> maxWait (normalized k) = ULONG_MAX ->
  minWait k = 0 /\ maxWait k = ULONG_MAX.
Proof.
  unfold normalized, ULONG_MAX.
  destruct ((minWait k <? 0) || (minWait k >? maxWait k)); simpl;
    [discriminate|].
  destruct (maxWait k =? 0); simpl; [discriminate | auto].
Qed.

(** The interval [ulong (ulong (hi + 1) - lo)] of ordered bounds. *)
Lemma interval_positive (lo hi : Z) :
  0 <= lo <= hi -> hi <= ULONG_MAX -> ~ (lo = 0 /\ hi = ULONG_MAX) ->
  1 <= ulong (ulong (hi + 1) - lo).
Proof.
  unfold ULONG_MAX, ulong. intros Hl Hu Hn.
  destruct (Z.eq_dec hi (2 ^ 64 - 1)) as [E|E].
  - subst hi. replace (2 ^ 64 - 1 + 1) with (1 * 2 ^ 64) by lia.
    rewrite Z.mod_mul by lia.
    replace (0 - lo) with ((2 ^ 64 - lo) + (-1) * 2 ^ 64) by lia.
    rewrite Z.mod_add by lia. rewrite Z.mod_small by lia. lia.
  - rewrite (Z.mod_small (hi + 1)) by lia.
    rewrite Z.mod_small by lia. lia.
Qed.

Lemma slowdisk_init_interval (fuel : nat) k k' :
  is_ulong (minWait k) -> is_ulong (maxWait k) ->
  ~ (minWait k = 0 /\ maxWait k = ULONG_MAX) ->
  slowdisk_init P fuel k = Ok 0 k' ->
  1 <= ulong (maxWait k' - minWait k').
Proof.
  intros Hlo Hhi Hne H. apply slowdisk_init_bounds in H.
  destruct H as [Hmin [Hmax _]]. rewrite Hmin, Hmax.
  pose proof (normalized_ordered W k Hlo) as [Hord _].
  apply interval_positive.
  - exact Hord.
  - now apply normalized_upper.
  - intros [Ha Hb]. apply Hne. now apply normalized_full_range.
Qed.

(** Away from that one configuration, every [random_wait] after a
    successful load returns a value within the normalised bounds, both ends
    included. *)
Lemma slowdisk_init_wait_in_range (fuel fuel' : nat) k k' (v : Z) k'' :
  is_ulong (minWait k) -> is_ulong (maxWait k) ->
  ~ (minWait k = 0 /\ maxWait k = ULONG_MAX) ->
  slowdisk_init P fuel k = Ok 0 k' ->
  random_wait P fuel' k' = Ok v k'' ->
  minWait (normalized k) <= v <= maxWait (normalized k).
Proof.
  intros Hlo Hhi Hne H Hw. apply slowdisk_init_bounds in H.
  destruct H as [Hmin [Hmax _]].
  apply random_wait_inv in Hw. destruct Hw as [_ [Hv _]]. subst v.
  pose proof (normalized_ordered W k Hlo) as [Hord H1].
  pose proof (normalized_upper k Hhi) as Hn.
  destruct (Z.eq_dec (maxWait (normalized k)) ULONG_MAX) as [E|E].
  - assert (H0 : maxWait k' = 0).
    { rewrite Hmax, E. reflexivity. }
    assert (Hpos : 0 < minWait k').
    { rewrite Hmin.
      destruct (Z.eq_dec (minWait (normalized k)) 0) as [Ez|Ez]; [|lia].
      exfalso. apply Hne. now apply normalized_full_range. }
    pose proof (chosen_wait_bounds_wrapped W P k') as Hb.
    rewrite Hmin in Hb. rewrite E.
    apply Hb; try assumption; unfold is_ulong; lia.
  - assert (Hm : maxWait k' = maxWait (normalized k) + 1).
    { rewrite Hmax. apply ulong_small. unfold is_ulong. lia. }
    pose proof (chosen_wait_bounds W P k') as Hb.
    rewrite Hmin, Hm in Hb.
    unfold is_ulong in *. lia.
Qed.

End Installed.

(** * The specification, claim by claim *)

(** C7.  When the configured [minWait] is greater than [maxWait], the
    range check of [slowdisk_init] sets the pair to exactly (500, 1000). *)
Theorem C7_inverted_range_becomes_default :
  forall (W : Type) (k : kernel W),
    minWait k > maxWait k ->
    exists k',
      normalize_wait_range k = Ok tt k' /\
      minWait k' = 500 /\ maxWait k' = 1000.
Proof.
  intros W k H. exists (normalized k). split.
  - apply normalize_wait_range_eq.
  - unfold normalized.
    replace (minWait k >? maxWait k) with true by (symmetry; lia).
    rewrite orb_true_r. simpl. split; reflexivity.
Qed.

Lemma C7_inverted_range_witness :
  minWait (loaded 7 3 blank_mem) > maxWait (loaded 7 3 blank_mem) /\
  exists k',
    normalize_wait_range (loaded 7 3 blank_mem) = Ok tt k' /\
    minWait k' = 500 /\ maxWait k' = 1000.
Proof.
  split.
  - simpl. lia.
  - apply (C7_inverted_range_becomes_default Z (loaded 7 3 blank_mem)).
    simpl. lia.
Defined.

(** C8.  A call of [random_wait] runs the body of its busy loop exactly as
    many times as the value it returns: with a non-zero interval the call
    returns once the fuel covers the loop, and whatever the fuel, a call
    that returns [v] has advanced the count of loop bodies by [v]. *)
Theorem C8_random_wait_returns_iterations :
  forall (W : Type) (P : platform) (k : kernel W),
    ulong (maxWait k - minWait k) <> 0 ->
    (exists fuel0 : nat, forall fuel : nat, (fuel0 <= fuel)%nat ->
       exists v k', random_wait P fuel k = Ok v k' /\ spun k' = spun k + v) /\
    (forall (fuel : nat) (v : Z) (k' : kernel W),
       random_wait P fuel k = Ok v k' -> spun k' = spun k + v).
Proof.
  intros W P k H. split.
  - exists (S (Z.to_nat (chosen_wait P k))). intros fuel Hf.
    exists (chosen_wait P k), (delayed P k). split.
    + apply random_wait_returns; [exact H | lia].
    + reflexivity.
  - intros fuel v k' Hr. apply random_wait_inv in Hr.
    destruct Hr as [_ [Hv Hk]]. subst. reflexivity.
Qed.

Lemma C8_random_wait_witness :
  let P := x86_64 linux_base (fun _ => 7) in
  let k := loaded 2 6 toy_mem in
  ulong (maxWait k - minWait k) <> 0 /\
  value_of (random_wait P 9 k) = Some 5 /\
  spun (state_of k (random_wait P 9 k)) = spun k + 5.
Proof.
  intros P k.
  assert (H : ulong (maxWait k - minWait k) <> 0) by (vm_compute; discriminate).
  split; [exact H|].
  destruct (C8_random_wait_returns_iterations Z P k H) as [_ Hc].
  split.
  - reflexivity.
  - apply (Hc 9%nat 5 (state_of k (random_wait P 9 k))). reflexivity.
Defined.

(** With a zero interval a hook faults in [random_wait], before it gets to
    the saved handler. *)
Lemma hooks_zero_interval (W : Type) (exec : Z -> Z -> Z -> Z -> W -> Z * W)
      (P : platform) (fuel : nat) (fd buf count : Z) (k : kernel W) :
  ulong (maxWait k - minWait k) = 0 ->
  write_hook exec P fuel fd buf count k = Crash DivideError /\
  read_hook exec P fuel fd buf count k = Crash DivideError.
Proof.
  intros H. split.
  - unfold write_hook. unfold bind at 1.
    now rewrite (random_wait_zero_interval W P fuel k H).
  - unfold read_hook. unfold bind at 1.
    now rewrite (random_wait_zero_interval W P fuel k H).
Qed.

(** C2.  The hooks do not forward every call.  Loaded with [minWait=0
    maxWait=18446744073709551615], [slowdisk_init] finds and patches the
    table, saves its two handlers (neither is [NULL]) and returns 0, but
    line 80 has wrapped [maxWait] to 0.  From then on, whatever
    [(fd, buf, count)] and whatever the handlers would do, [write_hook] and
    [read_hook] fault on the division in [random_wait]: the saved handler is
    never called and nothing is returned. *)
Theorem C2_hooks_fault_before_forwarding :
  forall e : nat -> Z,
    let P := x86_64 linux_base e in
    let k0 := loaded 0 ULONG_MAX toy_mem in
    let k := after_init P 9 k0 in
    slowdisk_init P 9 k0 = Ok 0 k /\
    orig_sys_write k = toy_mem (toy_table + 8) /\
    orig_sys_read k = toy_mem toy_table /\
    (orig_sys_write k =? NULL) = false /\
    (orig_sys_read k =? NULL) = false /\
    forall (exec : Z -> Z -> Z -> Z -> Z -> Z * Z) (fuel : nat)
           (fd buf count : Z),
      write_hook exec P fuel fd buf count k = Crash DivideError /\
      read_hook exec P fuel fd buf count k = Crash DivideError.
Proof.
  intros e P k0 k.
  split; [vm_compute; reflexivity|].
  split; [vm_compute; reflexivity|].
  split; [vm_compute; reflexivity|].
  split; [vm_compute; reflexivity|].
  split; [vm_compute; reflexivity|].
  intros exec fuel fd buf count.
  apply hooks_zero_interval. vm_compute. reflexivity.
Qed.

(** C6.  From any table state, the patching step of [slowdisk_init]
    followed by [slowdisk_exit] leaves the read and the write slot (indeed
    every word of memory, and CR0) as they were before the patch, although
    the read slot held the hook in between; a second [slowdisk_exit] leaves
    everything as the first one left it. *)
Theorem C6_install_restore_restore :
  forall (W : Type) (P : platform) (k : kernel W),
    sys_call_table k <> NULL ->
    exists k1 k2 k3,
      install_hooks P k = Ok tt k1 /\
      slowdisk_exit P k1 = Ok tt k2 /\
      slowdisk_exit P k2 = Ok tt k3 /\
      mem k1 (slot (sys_call_table k) (__NR_read P)) = read_hook_addr P /\
      mem k2 (slot (sys_call_table k) (__NR_read P))
      = mem k (slot (sys_call_table k) (__NR_read P)) /\
      mem k2 (slot (sys_call_table k) (__NR_write P))
      = mem k (slot (sys_call_table k) (__NR_write P)) /\
      (forall a, mem k2 a = mem k a) /\ cr0 k2 = cr0 k /\
      same_globals k2 k3 /\ same_machine k2 k3.
Proof.
  intros W P k Ht.
  exists (hooked P k), (unhooked P (hooked P k)),
         (unhooked P (unhooked P (hooked P k))).
  split; [now apply install_hooks_eq|].
  split; [now apply slowdisk_exit_eq|].
  split; [now apply slowdisk_exit_eq|].
  split; [simpl; apply poke_same|].
  split; [apply unhooked_hooked_mem|].
  split; [apply unhooked_hooked_mem|].
  split; [apply unhooked_hooked_mem|].
  split; [reflexivity|].
  split.
  - unfold same_globals. simpl. repeat split; reflexivity.
  - unfold same_machine. split; [reflexivity|].
    split; [apply unhooked_twice_mem|]. repeat split; reflexivity.
Qed.

Lemma C6_install_restore_witness :
  let P := x86_64 linux_base (fun _ => 7) in
  let k := set_sys_call_table toy_table (loaded 500 1000 toy_mem) in
  sys_call_table k <> NULL /\
  exists k1 k2 k3,
    install_hooks P k = Ok tt k1 /\
    slowdisk_exit P k1 = Ok tt k2 /\
    slowdisk_exit P k2 = Ok tt k3 /\
    mem k1 (slot (sys_call_table k) (__NR_read P)) = read_hook_addr P /\
    mem k2 (slot (sys_call_table k) (__NR_read P))
    = mem k (slot (sys_call_table k) (__NR_read P)) /\
    mem k2 (slot (sys_call_table k) (__NR_write P))
    = mem k (slot (sys_call_table k) (__NR_write P)) /\
    (forall a, mem k2 a = mem k a) /\ cr0 k2 = cr0 k /\
    same_globals k2 k3 /\ same_machine k2 k3.
Proof.
  intros P k.
  assert (H : sys_call_table k <> NULL) by (vm_compute; discriminate).
  split; [exact H|].
  exact (C6_install_restore_restore Z P k H).
Defined.

(** C10.  [slowdisk_exit] stores through [sys_call_table] without testing
    it: on any state whose table pointer is [NULL] it faults on a null
    dereference.  After a [slowdisk_init] that returned 0 the pointer is not
    [NULL], [slowdisk_exit] runs to its end, and its two stores put the
    saved handlers back into the read and write slots of that table. *)
Theorem C10_exit_relies_on_successful_init :
  forall (W : Type) (P : platform) (fuel : nat) (k0 k : kernel W),
    slowdisk_init P fuel k0 = Ok 0 k ->
    sys_call_table k <> NULL /\
    orig_sys_read k = mem k0 (slot (sys_call_table k) (__NR_read P)) /\
    orig_sys_write k = mem k0 (slot (sys_call_table k) (__NR_write P)) /\
    (exists k',
       slowdisk_exit P k = Ok tt k' /\
       mem k' (slot (sys_call_table k) (__NR_read P)) = orig_sys_read k /\
       forall a, mem k' a = mem k0 a) /\
    (forall j : kernel W,
       sys_call_table j = NULL -> slowdisk_exit P j = Crash NullDeref).
Proof.
  intros W P fuel k0 k H.
  pose proof (slowdisk_init_bounds W P fuel k0 k H) as [_ [_ Ht]].
  apply slowdisk_init_inv in H.
  destruct H as [k2 [Hg [[_ [H _]]|[Ht2 [_ Hk]]]]]; [discriminate|].
  apply get_syscall_table_frame in Hg.
  pose proof (normalized_frame W k0) as [_ [_ [_ [_ [Hmem _]]]]].
  assert (Hm2 : forall a, mem k2 a = mem k0 a).
  { intros a. rewrite Hg. simpl. apply Hmem. }
  split; [exact Ht|].
  split; [rewrite Hk; simpl; apply Hm2|].
  split; [rewrite Hk; simpl; apply Hm2|].
  split.
  - exists (unhooked P k). split; [now apply slowdisk_exit_eq|].
    split; [unfold unhooked; simpl; apply poke_same|].
    intros a. rewrite Hk.
    change (unhooked P (set_maxWait (ulong (maxWait k2 + 1)) (hooked P k2)))
      with (set_maxWait (ulong (maxWait k2 + 1)) (unhooked P (hooked P k2))).
    simpl mem. rewrite <- Hm2.
    apply (unhooked_hooked_mem W P k2 a).
  - intros j Hj. now apply slowdisk_exit_null.
Qed.

Lemma C10_exit_witness :
  let P := x86_64 linux_base (fun _ => 7) in
  let k0 := loaded 500 1000 toy_mem in
  let k := after_init P 9 k0 in
  slowdisk_init P 9 k0 = Ok 0 k /\
  sys_call_table k = toy_table /\
  value_of (slowdisk_exit P k) = Some tt.
Proof.
  intros P k0 k.
  assert (H : slowdisk_init P 9 k0 = Ok 0 k) by (vm_compute; reflexivity).
  split; [exact H|]. split; [vm_compute; reflexivity|].
  destruct (C10_exit_relies_on_successful_init Z P 9 k0 k H)
    as [_ [_ [_ [[k' [He _]] _]]]].
  rewrite He. reflexivity.
Defined.



(** C4.  On x86-64, with a memory in which no word equals the address of
    [sys_close], [get_syscall_table] does not come back with [NULL]: the
    pointer starts at [PAGE_OFFSET], a multiple of 8, and moves in steps of
    8, so it is never [ULONG_MAX] and the loop condition never fails.  After
    16492674416640 steps the pointer wraps to [NULL] and the read of
    [sys_call_table[__NR_close]] faults; before that the loop is still
    running.  The assignment [sys_call_table = NULL] is never reached. *)
Theorem C4_scan_never_gives_up :
  forall (e : nat -> Z) (lo hi : Z) (fuel : nat),
    get_syscall_table (x86_64 linux_base e) fuel (loaded lo hi blank_mem)
    = if Z.of_nat fuel <=? 16492674416640 then Spin else Crash NullDeref.
Proof.
  intros e lo hi fuel. unfold get_syscall_table.
  unfold bind at 1. unfold modify at 1.
  rewrite scan_no_anchor.
  - reflexivity.
  - simpl. unfold is_ulong, ULONG_MAX, linux_base. lia.
  - reflexivity.
  - intros p. simpl. unfold blank_mem. discriminate.
Qed.

(** C3.  Loaded with [minWait=0 maxWait=0], the range check sets [maxWait]
    to 1, the table is found and patched, line 80 makes [maxWait] 2, and
    [random_wait] then computes [wait % 2]: with an odd word from the
    entropy pool it returns 1, not 0. *)
Theorem C3_zero_range_waits_one :
  let P := x86_64 linux_base (fun _ => 1) in
  let k0 := loaded 0 0 toy_mem in
  let k := after_init P 9 k0 in
  maxWait (normalized k0) = 1 /\
  slowdisk_init P 9 k0 = Ok 0 k /\
  minWait k = 0 /\ maxWait k = 2 /\
  forall fuel : nat, (2 <= fuel)%nat ->
    value_of (random_wait P fuel k) = Some 1.
Proof.
  intros P k0 k.
  split; [reflexivity|].
  split; [vm_compute; reflexivity|].
  split; [vm_compute; reflexivity|].
  split; [vm_compute; reflexivity|].
  intros fuel Hf.
  assert (Hc : chosen_wait P k = 1) by (vm_compute; reflexivity).
  rewrite random_wait_returns.
  - simpl. now rewrite Hc.
  - vm_compute. discriminate.
  - rewrite Hc. simpl. lia.
Qed.

(** C9.  Loaded with [minWait=0 maxWait=18446744073709551615], the range
    check changes nothing, the table is found and patched, and line 80
    wraps [maxWait] to 0: [slowdisk_init] returns 0 and leaves
    [waitInterval = maxWait - minWait = 0], so that the modulo in
    [random_wait] divides by zero. *)
Theorem C9_full_range_zero_interval :
  let P := x86_64 linux_base (fun _ => 1) in
  let k0 := loaded 0 ULONG_MAX toy_mem in
  let k := after_init P 9 k0 in
  slowdisk_init P 9 k0 = Ok 0 k /\
  minWait k = 0 /\ maxWait k = 0 /\
  ulong (maxWait k - minWait k) = 0 /\
  forall fuel : nat, random_wait P fuel k = Crash DivideError.
Proof.
  intros P k0 k.
  split; [vm_compute; reflexivity|].
  split; [vm_compute; reflexivity|].
  split; [vm_compute; reflexivity|].
  split; [vm_compute; reflexivity|].
  intros fuel. apply random_wait_zero_interval. vm_compute. reflexivity.
Qed.

(** C1.  Two configurations with [minWait <= maxWait] for which a
    [random_wait] after a successful load does not return a value within
    the configured bounds: with [minWait=0 maxWait=0] it can return 1, which
    is above the configured (and logged as excluded) maximum; with
    [minWait=0 maxWait=18446744073709551615] it returns nothing at all. *)
Theorem C1_wait_outside_configured_bounds :
  let P := x86_64 linux_base (fun _ => 1) in
  (let k0 := loaded 0 0 toy_mem in
   minWait k0 <= maxWait k0 /\
   value_of (slowdisk_init P 9 k0) = Some 0 /\
   value_of (random_wait P 9 (after_init P 9 k0)) = Some 1 /\
   ~ (minWait k0 <= 1 <= maxWait k0)) /\
  (let k0 := loaded 0 ULONG_MAX toy_mem in
   minWait k0 <= maxWait k0 /\
   value_of (slowdisk_init P 9 k0) = Some 0 /\
   forall fuel : nat,
     random_wait P fuel (after_init P 9 k0) = Crash DivideError).
Proof.
  intros P. split.
  - intros k0.
    split; [simpl; lia|].
    split; [vm_compute; reflexivity|].
    split; [vm_compute; reflexivity|].
    simpl. lia.
  - intros k0.
    split; [vm_compute; discriminate|].
    split; [vm_compute; reflexivity|].
    intros fuel. apply random_wait_zero_interval. vm_compute. reflexivity.
Qed.

(** * Further properties of the code *)

(** ** Words, again *)

Lemma ulong_add_l (a b : Z) : ulong (ulong a + b) = ulong (a + b).
Proof. unfold ulong. apply Z.add_mod_idemp_l. lia. Qed.

Lemma candidate_0 (p : Z) : is_ulong p -> candidate p 0 = p.
Proof.
  intros H. unfold candidate. simpl. rewrite Z.add_0_r. now apply ulong_small.
Qed.

Lemma candidate_step (p : Z) (n : nat) :
  candidate (ulong (p + 8)) n = candidate p (S n).
Proof.
  unfold candidate. rewrite ulong_add_l. f_equal. lia.
Qed.

(** Bit [n] of [ulong (~0x10000)]. *)
Lemma wp_mask_bits (n : Z) :
  Z.testbit (ulong (Z.lnot 65536)) n = (0 <=? n) && (n <? 64) && negb (n =? 16).
Proof.
  destruct (Z.ltb_spec n 0) as [Hn|Hn].
  - rewrite Z.testbit_neg_r by lia.
    replace (0 <=? n) with false by (symmetry; apply Z.leb_gt; lia).
    reflexivity.
  - replace (0 <=? n) with true by (symmetry; apply Z.leb_le; lia).
    unfold ulong. destruct (Z.ltb_spec n 64) as [Hh|Hh]; cbn [andb].
    + rewrite Z.mod_pow2_bits_low by lia.
      rewrite Z.lnot_spec by lia.
      change 65536 with (2 ^ 16). rewrite Z.pow2_bits_eqb by lia.
      now rewrite Z.eqb_sym.
    + apply Z.mod_pow2_bits_high. lia.
Qed.

Section Locator.

Variable W : Type.
Variable P : platform.

Implicit Types k : kernel W.

Lemma set_sys_call_table_same k : set_sys_call_table (sys_call_table k) k = k.
Proof. destruct k; reflexivity. Qed.

Lemma first_anchor_shift (m : Z -> Z) (p : Z) (n : nat) :
  first_anchor P m p (S n) -> first_anchor P m (ulong (p + 8)) n.
Proof.
  intros [Hc [Hno Hyes]]. repeat split.
  - rewrite candidate_step. apply Hc. lia.
  - rewrite candidate_step. apply Hc. lia.
  - intros j Hj. rewrite candidate_step. apply Hno. lia.
  - rewrite candidate_step. exact Hyes.
Qed.

Lemma first_anchor_unshift (m : Z -> Z) (p : Z) (n : nat) :
  is_ulong p -> p <> NULL -> p < ULONG_MAX ->
  m (slot p (__NR_close P)) <> sys_close P ->
  first_anchor P m (ulong (p + 8)) n -> first_anchor P m p (S n).
Proof.
  intros Hr H0 Hlt Hm [Hc [Hno Hyes]]. repeat split.
  - destruct j as [|j].
    + now rewrite candidate_0.
    + rewrite <- candidate_step. apply Hc. lia.
  - destruct j as [|j].
    + now rewrite candidate_0.
    + rewrite <- candidate_step. apply Hc. lia.
  - intros j Hj. destruct j as [|j].
    + now rewrite candidate_0.
    + rewrite <- candidate_step. apply Hno. lia.
  - rewrite <- candidate_step. exact Hyes.
Qed.

(** The anchor only depends on the words the scan reads. *)
Lemma first_anchor_ext (m m' : Z -> Z) (p : Z) (n : nat) :
  (forall j : nat, (j <= n)%nat ->
     m' (slot (candidate p j) (__NR_close P))
     = m (slot (candidate p j) (__NR_close P))) ->
  first_anchor P m p n -> first_anchor P m' p n.
Proof.
  intros He [Hc [Hno Hyes]]. repeat split; try (apply Hc; assumption).
  - intros j Hj. rewrite He by lia. now apply Hno.
  - rewrite He by lia. exact Hyes.
Qed.

(** If the scan can get to a first anchor, it stops there. *)
Lemma scan_complete (n : nat) :
  forall (fuel : nat) k,
    is_ulong (sys_call_table k) ->
    first_anchor P (mem k) (sys_call_table k) n ->
    (n < fuel)%nat ->
    scan P fuel k
    = Ok tt (set_sys_call_table (candidate (sys_call_table k) n) k).
Proof.
  induction n as [|n IH]; intros fuel k Hr Hfa Hf;
    (destruct fuel as [|fuel]; [lia|]);
    pose proof Hfa as [Hc [Hno Hyes]];
    destruct (Hc 0%nat ltac:(lia)) as [H0 Hlt];
    rewrite candidate_0 in H0, Hlt by assumption;
    cbn [scan]; unfold load; run;
    rewrite (proj2 (Z.ltb_lt _ _) Hlt);
    rewrite (proj2 (Z.eqb_neq _ _) H0).
  - rewrite candidate_0 in Hyes by assumption.
    rewrite (proj2 (Z.eqb_eq _ _) Hyes).
    rewrite candidate_0 by assumption.
    now rewrite set_sys_call_table_same.
  - pose proof (Hno 0%nat ltac:(lia)) as Hm.
    rewrite candidate_0 in Hm by assumption.
    rewrite (proj2 (Z.eqb_neq _ _) Hm).
    rewrite IH.
    + simpl. rewrite candidate_step. reflexivity.
    + apply ulong_range.
    + simpl. now apply first_anchor_shift.
    + lia.
Qed.

(** A scan that stops at a pointer has stopped at the first anchor. *)
Lemma scan_first (fuel : nat) :
  forall k k',
    is_ulong (sys_call_table k) ->
    scan P fuel k = Ok tt k' -> sys_call_table k' <> NULL ->
    exists n : nat,
      (n < fuel)%nat /\
      sys_call_table k' = candidate (sys_call_table k) n /\
      first_anchor P (mem k) (sys_call_table k) n.
Proof.
  induction fuel as [|fuel IH]; intros k k' Hr H Hnn; [discriminate|].
  cbn [scan] in H. unfold load in H. revert H. run.
  destruct (Z.ltb_spec (sys_call_table k) ULONG_MAX) as [Hlt|Hge].
  - destruct (Z.eqb_spec (sys_call_table k) NULL) as [E0|E0]; [discriminate|].
    destruct (Z.eqb_spec (mem k (slot (sys_call_table k) (__NR_close P)))
                (sys_close P)) as [Em|Em].
    + intros H. inversion H; subst. exists 0%nat.
      rewrite candidate_0 by assumption.
      split; [lia|]. split; [reflexivity|].
      repeat split.
      * replace j with 0%nat by lia. now rewrite candidate_0.
      * replace j with 0%nat by lia. now rewrite candidate_0.
      * intros j Hj. lia.
      * now rewrite candidate_0.
    + intros H. apply IH in H; [|apply ulong_range|exact Hnn].
      destruct H as [n [Hn [Ht Hfa]]]. simpl in Ht, Hfa.
      exists (S n). split; [lia|].
      split; [now rewrite <- candidate_step|].
      now apply first_anchor_unshift.
  - intros H. inversion H; subst. simpl in Hnn. now elim Hnn.
Qed.

End Locator.

Section Loading.

Variable W : Type.
Variable P : platform.

Implicit Types k : kernel W.

Lemma normalized_mem k : mem (normalized k) = mem k.
Proof.
  unfold normalized.
  destruct ((minWait k <? 0) || (minWait k >? maxWait k));
    [|destruct (maxWait k =? 0)]; reflexivity.
Qed.

(** The state a successful load leaves when the table is at [t]. *)
Lemma get_syscall_table_complete (n fuel : nat) k :
  is_ulong (PAGE_OFFSET P) ->
  first_anchor P (mem k) (PAGE_OFFSET P) n -> (n < fuel)%nat ->
  get_syscall_table P fuel k
  = Ok tt (set_sys_call_table (candidate (PAGE_OFFSET P) n) k).
Proof.
  intros Hr Hfa Hf. unfold get_syscall_table. run.
  rewrite (scan_complete W P n); simpl; auto.
Qed.

Lemma get_syscall_table_first (fuel : nat) k k' :
  is_ulong (PAGE_OFFSET P) ->
  get_syscall_table P fuel k = Ok tt k' -> sys_call_table k' <> NULL ->
  exists n : nat,
    (n < fuel)%nat /\
    sys_call_table k' = candidate (PAGE_OFFSET P) n /\
    first_anchor P (mem k) (PAGE_OFFSET P) n.
Proof.
  intros Hr H Hnn. unfold get_syscall_table in H. revert H. run. intros H.
  apply scan_first in H; auto.
Qed.

(** What [slowdisk_init] leaves when the first anchor is [n] words above
    [PAGE_OFFSET]. *)
Lemma slowdisk_init_complete (n fuel : nat) k :
  is_ulong (PAGE_OFFSET P) ->
  first_anchor P (mem k) (PAGE_OFFSET P) n -> (n < fuel)%nat ->
  slowdisk_init P fuel k
  = Ok 0 (set_maxWait (ulong (maxWait (normalized k) + 1))
            (hooked P (set_sys_call_table (candidate (PAGE_OFFSET P) n)
                         (normalized k)))).
Proof.
  intros Hr Hfa Hf.
  assert (Hfa' : first_anchor P (mem (normalized k)) (PAGE_OFFSET P) n)
    by now rewrite normalized_mem.
  rewrite (slowdisk_init_found W P fuel k _
             (get_syscall_table_complete n fuel (normalized k) Hr Hfa' Hf)).
  - reflexivity.
  - simpl. destruct Hfa as [Hc _]. apply (Hc n). lia.
Qed.

(** Every successful load is of that form. *)
Lemma slowdisk_init_ok_inv (fuel : nat) k0 k :
  is_ulong (PAGE_OFFSET P) ->
  slowdisk_init P fuel k0 = Ok 0 k ->
  exists n : nat,
    (n < fuel)%nat /\
    first_anchor P (mem k0) (PAGE_OFFSET P) n /\
    k = set_maxWait (ulong (maxWait (normalized k0) + 1))
          (hooked P (set_sys_call_table (candidate (PAGE_OFFSET P) n)
                       (normalized k0))).
Proof.
  intros Hr H. apply slowdisk_init_inv in H.
  destruct H as [k2 [Hg [[_ [H _]]|[Ht [_ Hk]]]]]; [discriminate|].
  destruct (get_syscall_table_first fuel _ _ Hr Hg Ht) as [n [Hn [Hc Hfa]]].
  rewrite normalized_mem in Hfa.
  exists n. split; [exact Hn|]. split; [exact Hfa|].
  apply get_syscall_table_frame in Hg. rewrite Hk, Hg, Hc. reflexivity.
Qed.

(** [slowdisk_exit] after a successful load gives back the memory the load
    found. *)
Lemma slowdisk_init_exit_mem (fuel : nat) k0 k (a : Z) :
  slowdisk_init P fuel k0 = Ok 0 k ->
  mem (unhooked P k) a = mem k0 a.
Proof.
  intros H. apply slowdisk_init_inv in H.
  destruct H as [k2 [Hg [[_ [H _]]|[Ht [_ Hk]]]]]; [discriminate|].
  apply get_syscall_table_frame in Hg. rewrite Hk.
  transitivity (mem k2 a); [exact (unhooked_hooked_mem W P k2 a)|].
  rewrite Hg. simpl. now rewrite normalized_mem.
Qed.

(** ** The hooks, read backwards *)

Variable exec : Z -> Z -> Z -> Z -> W -> Z * W.



End Loading.

(** The toy memory has its first anchor four words above [linux_base]. *)
Lemma toy_first_anchor (e : nat -> Z) :
  first_anchor (x86_64 linux_base e) toy_mem linux_base 4.
Proof.
  split; [|split].
  - intros j Hj.
    do 5 (destruct j as [|j];
          [split; [vm_compute; discriminate | vm_compute; reflexivity]|]).
    lia.
  - intros j Hj.
    do 4 (destruct j as [|j]; [vm_compute; discriminate|]). lia.
  - vm_compute. reflexivity.
Qed.

Lemma linux_base_ulong : is_ulong linux_base.
Proof. unfold is_ulong, linux_base, ULONG_MAX. lia. Qed.

(** ** The locator *)

(** X1.  When [get_syscall_table] comes back with a pointer that is not
    [NULL], the anchor slot of that pointer holds the address of
    [sys_close], the pointer is [PAGE_OFFSET] plus a whole number of words,
    and no pointer the scan passed before had the address in its anchor
    slot: the scan stops at the first match. *)
Theorem X1_locator_stops_at_first_anchor :
  forall (W : Type) (P : platform) (fuel : nat) (k k' : kernel W),
    is_ulong (PAGE_OFFSET P) ->
    get_syscall_table P fuel k = Ok tt k' ->
    sys_call_table k' <> NULL ->
    mem k (slot (sys_call_table k') (__NR_close P)) = sys_close P /\
    exists n : nat,
      (n < fuel)%nat /\
      sys_call_table k' = candidate (PAGE_OFFSET P) n /\
      forall j : nat, (j < n)%nat ->
        mem k (slot (candidate (PAGE_OFFSET P) j) (__NR_close P))
        <> sys_close P.
Proof.
  intros W P fuel k k' Hr H Hnn.
  destruct (get_syscall_table_first W P fuel k k' Hr H Hnn)
    as [n [Hn [Ht [_ [Hno Hyes]]]]].
  split; [now rewrite Ht|].
  exists n. auto.
Qed.

Lemma X1_locator_witness :
  let P := x86_64 linux_base (fun _ => 7) in
  let k := loaded 500 1000 toy_mem in
  let k' := state_of k (get_syscall_table P 9 k) in
  is_ulong (PAGE_OFFSET P) /\
  get_syscall_table P 9 k = Ok tt k' /\
  sys_call_table k' <> NULL /\
  mem k (slot (sys_call_table k') (__NR_close P)) = sys_close P.
Proof.
  intros P k k'.
  assert (Hr : is_ulong (PAGE_OFFSET P)) by exact linux_base_ulong.
  assert (H : get_syscall_table P 9 k = Ok tt k') by (vm_compute; reflexivity).
  assert (Hnn : sys_call_table k' <> NULL) by (vm_compute; discriminate).
  split; [exact Hr|]. split; [exact H|]. split; [exact Hnn|].
  exact (proj1 (X1_locator_stops_at_first_anchor Z P 9 k k' Hr H Hnn)).
Defined.

(** X2.  Conversely, when the first pointer from [PAGE_OFFSET] whose anchor
    slot holds the address of [sys_close] is [n] words up, and the pointers
    on the way are neither [NULL] nor [ULONG_MAX] or above, then
    [get_syscall_table] returns after [n + 1] loop tests with
    [sys_call_table] at that pointer, whatever [sys_call_table] was before,
    and with nothing else changed. *)
Theorem X2_locator_finds_first_anchor :
  forall (W : Type) (P : platform) (n fuel : nat) (k : kernel W),
    is_ulong (PAGE_OFFSET P) ->
    first_anchor P (mem k) (PAGE_OFFSET P) n ->
    (n < fuel)%nat ->
    get_syscall_table P fuel k
    = Ok tt (set_sys_call_table (candidate (PAGE_OFFSET P) n) k).
Proof.
  intros W P n fuel k. apply get_syscall_table_complete.
Qed.

Lemma X2_locator_witness :
  let P := x86_64 linux_base (fun _ => 7) in
  let k := loaded 500 1000 toy_mem in
  is_ulong (PAGE_OFFSET P) /\
  first_anchor P (mem k) (PAGE_OFFSET P) 4 /\
  (4 < 5)%nat /\
  get_syscall_table P 5 k = Ok tt (set_sys_call_table toy_table k).
Proof.
  intros P k.
  assert (Hr : is_ulong (PAGE_OFFSET P)) by exact linux_base_ulong.
  assert (Hfa : first_anchor P (mem k) (PAGE_OFFSET P) 4)
    by exact (toy_first_anchor (fun _ => 7)).
  assert (Hf : (4 < 5)%nat) by lia.
  split; [exact Hr|]. split; [exact Hfa|]. split; [exact Hf|].
  exact (X2_locator_finds_first_anchor Z P 4 5 k Hr Hfa Hf).
Defined.

(** X3.  Found or not, [get_syscall_table] writes nothing but the
    [sys_call_table] variable: memory, CR0, the bounds, the saved handlers
    and the rest of the machine are as before. *)
Theorem X3_locator_writes_only_its_pointer :
  forall (W : Type) (P : platform) (fuel : nat) (k k' : kernel W),
    get_syscall_table P fuel k = Ok tt k' ->
    k' = set_sys_call_table (sys_call_table k') k /\
    same_machine k k' /\
    minWait k' = minWait k /\ maxWait k' = maxWait k /\
    orig_sys_write k' = orig_sys_write k /\
    orig_sys_read k' = orig_sys_read k.
Proof.
  intros W P fuel k k' H. apply get_syscall_table_frame in H.
  split; [exact H|]. rewrite H. unfold same_machine. simpl.
  repeat split; reflexivity.
Qed.

Lemma X3_locator_witness :
  let P := x86_64 linux_base (fun _ => 7) in
  let k := loaded 500 1000 toy_mem in
  let k' := state_of k (get_syscall_table P 9 k) in
  get_syscall_table P 9 k = Ok tt k' /\
  same_machine k k'.
Proof.
  intros P k k'.
  assert (H : get_syscall_table P 9 k = Ok tt k') by (vm_compute; reflexivity).
  split; [exact H|].
  exact (proj1 (proj2 (X3_locator_writes_only_its_pointer Z P 9 k k' H))).
Defined.

(** ** [slowdisk_init] *)

(** X4.  With a [PAGE_OFFSET] that is a multiple of the word size,
    [slowdisk_init] never returns -1: whenever it returns, it returns 0 with
    a table pointer that is not [NULL].  The error path of lines 63-66 is
    dead on such a machine. *)
Theorem X4_aligned_base_never_rejects :
  forall (W : Type) (P : platform) (fuel : nat) (k k' : kernel W) (r : Z),
    is_ulong (PAGE_OFFSET P) -> PAGE_OFFSET P mod 8 = 0 ->
    slowdisk_init P fuel k = Ok r k' ->
    r = 0 /\ sys_call_table k' <> NULL.
Proof.
  intros W P fuel k k' r Hr Ha H.
  apply slowdisk_init_inv in H.
  destruct H as [k2 [Hg [[Ht _]|[Ht [Hz Hk]]]]].
  - exfalso.
    now apply (get_syscall_table_aligned_never_absent W P fuel _ _ Hr Ha Hg).
  - split; [exact Hz|]. rewrite Hk. exact Ht.
Qed.

Lemma X4_aligned_base_witness :
  let P := x86_64 linux_base (fun _ => 7) in
  let k := loaded 500 1000 toy_mem in
  let k' := after_init P 9 k in
  is_ulong (PAGE_OFFSET P) /\ PAGE_OFFSET P mod 8 = 0 /\
  slowdisk_init P 9 k = Ok 0 k' /\
  sys_call_table k' <> NULL.
Proof.
  intros P k k'.
  assert (Hr : is_ulong (PAGE_OFFSET P)) by exact linux_base_ulong.
  assert (Ha : PAGE_OFFSET P mod 8 = 0) by reflexivity.
  assert (H : slowdisk_init P 9 k = Ok 0 k') by (vm_compute; reflexivity).
  split; [exact Hr|]. split; [exact Ha|]. split; [exact H|].
  exact (proj2 (X4_aligned_base_never_rejects Z P 9 k k' 0 Hr Ha H)).
Defined.

(** X5.  [slowdisk_init] returns 0 or -1 and nothing else: 0 with a table
    pointer that is not [NULL] and [maxWait] one above its normalised value
    (modulo 2^64), -1 with a [NULL] pointer and [maxWait] at its normalised
    value.  In both cases [minWait] is the normalised lower bound. *)
Theorem X5_init_status_and_bounds :
  forall (W : Type) (P : platform) (fuel : nat) (k k' : kernel W) (r : Z),
    slowdisk_init P fuel k = Ok r k' ->
    minWait k' = minWait (normalized k) /\
    ((r = 0 /\ sys_call_table k' <> NULL /\
      maxWait k' = ulong (maxWait (normalized k) + 1)) \/
     (r = -1 /\ sys_call_table k' = NULL /\
      maxWait k' = maxWait (normalized k))).
Proof.
  intros W P fuel k k' r H.
  apply slowdisk_init_inv in H.
  destruct H as [k2 [Hg [[Ht [Hr Hk]]|[Ht [Hr Hk]]]]];
    apply get_syscall_table_frame in Hg.
  - subst k'. split; [rewrite Hg; reflexivity|].
    right. split; [exact Hr|]. split; [exact Ht|]. rewrite Hg. reflexivity.
  - split; [rewrite Hk, Hg; reflexivity|].
    left. split; [exact Hr|]. split; [rewrite Hk; exact Ht|].
    rewrite Hk. simpl. rewrite Hg. reflexivity.
Qed.

Lemma X5_init_status_witness :
  let P := x86_64 linux_base (fun _ => 7) in
  let k := loaded 7 3 toy_mem in
  let k' := after_init P 9 k in
  slowdisk_init P 9 k = Ok 0 k' /\
  minWait k' = 500 /\ maxWait k' = 1001.
Proof.
  intros P k k'.
  assert (H : slowdisk_init P 9 k = Ok 0 k') by (vm_compute; reflexivity).
  split; [exact H|].
  destruct (X5_init_status_and_bounds Z P 9 k k' 0 H)
    as [Hmin [[_ [_ Hmax]]|[Hr _]]]; [|discriminate].
  split.
  - rewrite Hmin. reflexivity.
  - rewrite Hmax. reflexivity.
Defined.

(** X6.  After a [slowdisk_init] that returned 0, the read slot of the
    table holds the address of [read_hook] and the write slot, when it is a
    different word, the address of [write_hook]; every other word of memory
    is as the load found it, CR0 is back at the value it had (write
    protection included), and the entropy pool, the loop counter and the
    rest of the system are untouched. *)
Theorem X6_init_patches_two_words :
  forall (W : Type) (P : platform) (fuel : nat) (k0 k : kernel W),
    slowdisk_init P fuel k0 = Ok 0 k ->
    let t := sys_call_table k in
    mem k (slot t (__NR_read P)) = read_hook_addr P /\
    (slot t (__NR_write P) <> slot t (__NR_read P) ->
     mem k (slot t (__NR_write P)) = write_hook_addr P) /\
    (forall a, a <> slot t (__NR_read P) -> a <> slot t (__NR_write P) ->
               mem k a = mem k0 a) /\
    cr0 k = cr0 k0 /\ drawn k = drawn k0 /\ spun k = spun k0 /\
    world k = world k0.
Proof.
  intros W P fuel k0 k H t.
  apply slowdisk_init_inv in H.
  destruct H as [k2 [Hg [[_ [H _]]|[Ht [_ Hk]]]]]; [discriminate|].
  apply get_syscall_table_frame in Hg.
  pose proof (normalized_frame W k0) as [_ [_ [_ [Hc [_ [Hd [Hs Hw]]]]]]].
  assert (Et : t = sys_call_table k2) by (unfold t; rewrite Hk; reflexivity).
  rewrite Et, Hk. simpl.
  split; [apply poke_same|].
  split.
  { intros Hne. rewrite poke_other by exact Hne. apply poke_same. }
  split.
  { intros a Hr Hw'. rewrite !poke_other by assumption.
    rewrite Hg. simpl. now rewrite normalized_mem. }
  rewrite Hg. simpl. auto.
Qed.

Lemma X6_init_patches_witness :
  let P := x86_64 linux_base (fun _ => 7) in
  let k0 := loaded 500 1000 toy_mem in
  let k := after_init P 9 k0 in
  slowdisk_init P 9 k0 = Ok 0 k /\
  mem k toy_table = read_hook_addr P /\
  mem k (toy_table + 8) = write_hook_addr P /\
  cr0 k = cr0 k0.
Proof.
  intros P k0 k.
  assert (H : slowdisk_init P 9 k0 = Ok 0 k) by (vm_compute; reflexivity).
  split; [exact H|].
  destruct (X6_init_patches_two_words Z P 9 k0 k H)
    as [Hr [Hw [_ [Hc _]]]].
  split; [exact Hr|]. split; [|exact Hc].
  apply Hw. vm_compute. discriminate.
Defined.

(** X7.  [cr0 & ~0x10000] clears bit 16, the write-protect bit, and keeps
    each of the other 63 bits of the register as it was. *)
Theorem X7_clear_wp_only_bit_16 :
  forall c n : Z,
    Z.testbit (clear_wp c) n
    = Z.testbit c n && ((n <? 64) && negb (n =? 16)).
Proof.
  intros c n. unfold clear_wp. rewrite Z.land_spec, wp_mask_bits.
  destruct (Z.leb_spec 0 n) as [Hn|Hn].
  - reflexivity.
  - now rewrite Z.testbit_neg_r by lia.
Qed.

(** ** The interval of the delay *)

(** X8.  After a [slowdisk_init] that returned 0, the interval
    [maxWait - minWait] that [random_wait] divides by is zero exactly when
    the module was configured with [minWait=0] and [maxWait=ULONG_MAX]; for
    every other configuration it is at least 1. *)
Theorem X8_zero_interval_only_for_full_range :
  forall (W : Type) (P : platform) (fuel : nat) (k k' : kernel W),
    is_ulong (minWait k) -> is_ulong (maxWait k) ->
    slowdisk_init P fuel k = Ok 0 k' ->
    (ulong (maxWait k' - minWait k') = 0 <->
     minWait k = 0 /\ maxWait k = ULONG_MAX) /\
    (~ (minWait k = 0 /\ maxWait k = ULONG_MAX) ->
     1 <= ulong (maxWait k' - minWait k')).
Proof.
  intros W P fuel k k' Hlo Hhi H. split; [split|].
  - intros Hz.
    destruct (Z.eq_dec (minWait k) 0) as [E0|E0];
      destruct (Z.eq_dec (maxWait k) ULONG_MAX) as [E1|E1]; auto;
      (assert (Hne : ~ (minWait k = 0 /\ maxWait k = ULONG_MAX))
         by (intros [? ?]; contradiction);
       pose proof (slowdisk_init_interval W P fuel k k' Hlo Hhi Hne H);
       lia).
  - intros [E0 E1]. apply slowdisk_init_bounds in H.
    destruct H as [Hmin [Hmax _]]. rewrite Hmin, Hmax.
    assert (Hn : normalized k = k).
    { apply normalized_valid; rewrite ?E0, ?E1; unfold ULONG_MAX; lia. }
    rewrite Hn, E0, E1. reflexivity.
  - intros Hne. exact (slowdisk_init_interval W P fuel k k' Hlo Hhi Hne H).
Qed.

Lemma X8_zero_interval_witness :
  let P := x86_64 linux_base (fun _ => 7) in
  let k := loaded 500 1000 toy_mem in
  let k' := after_init P 9 k in
  is_ulong (minWait k) /\ is_ulong (maxWait k) /\
  slowdisk_init P 9 k = Ok 0 k' /\
  1 <= ulong (maxWait k' - minWait k').
Proof.
  intros P k k'.
  assert (Hlo : is_ulong (minWait k)) by (unfold is_ulong, ULONG_MAX; simpl; lia).
  assert (Hhi : is_ulong (maxWait k)) by (unfold is_ulong, ULONG_MAX; simpl; lia).
  assert (H : slowdisk_init P 9 k = Ok 0 k') by (vm_compute; reflexivity).
  split; [exact Hlo|]. split; [exact Hhi|]. split; [exact H|].
  apply (proj2 (X8_zero_interval_only_for_full_range Z P 9 k k' Hlo Hhi H)).
  simpl. lia.
Defined.

(** X9.  For every configuration other than [minWait=0],
    [maxWait=ULONG_MAX], each [random_wait] after a successful load returns
    a value between the normalised bounds, both ends included: between the
    configured bounds when they are ordered and [maxWait] is not zero, and
    between 500 and 1000 when they are inverted. *)
Theorem X9_wait_within_normalised_bounds :
  forall (W : Type) (P : platform) (fuel fuel' : nat) (k k' k'' : kernel W)
         (v : Z),
    is_ulong (minWait k) -> is_ulong (maxWait k) ->
    ~ (minWait k = 0 /\ maxWait k = ULONG_MAX) ->
    slowdisk_init P fuel k = Ok 0 k' ->
    random_wait P fuel' k' = Ok v k'' ->
    minWait (normalized k) <= v <= maxWait (normalized k) /\
    (minWait k <= maxWait k -> maxWait k <> 0 ->
     minWait k <= v <= maxWait k) /\
    (minWait k > maxWait k -> 500 <= v <= 1000).
Proof.
  intros W P fuel fuel' k k' k'' v Hlo Hhi Hne H Hw.
  pose proof (slowdisk_init_wait_in_range W P fuel fuel' k k' v k''
                Hlo Hhi Hne H Hw) as Hb.
  split; [exact Hb|]. split.
  - intros Hord Hz.
    rewrite (normalized_valid W k) in Hb; [exact Hb | | exact Hz].
    unfold is_ulong in Hlo. lia.
  - intros Hinv. revert Hb. unfold normalized.
    replace (minWait k >? maxWait k) with true by (symmetry; lia).
    rewrite orb_true_r. simpl. auto.
Qed.

Lemma X9_wait_within_witness :
  let P := x86_64 linux_base (fun _ => 7) in
  let k := loaded 500 1000 toy_mem in
  let k' := after_init P 9 k in
  let k'' := state_of k' (random_wait P 600 k') in
  is_ulong (minWait k) /\ is_ulong (maxWait k) /\
  ~ (minWait k = 0 /\ maxWait k = ULONG_MAX) /\
  slowdisk_init P 9 k = Ok 0 k' /\
  random_wait P 600 k' = Ok 507 k'' /\
  500 <= 507 <= 1000.
Proof.
  intros P k k' k''.
  assert (Hlo : is_ulong (minWait k)) by (unfold is_ulong, ULONG_MAX; simpl; lia).
  assert (Hhi : is_ulong (maxWait k)) by (unfold is_ulong, ULONG_MAX; simpl; lia).
  assert (Hne : ~ (minWait k = 0 /\ maxWait k = ULONG_MAX)) by (simpl; lia).
  assert (H : slowdisk_init P 9 k = Ok 0 k') by (vm_compute; reflexivity).
  assert (Hw : random_wait P 600 k' = Ok 507 k'') by (vm_compute; reflexivity).
  split; [exact Hlo|]. split; [exact Hhi|]. split; [exact Hne|].
  split; [exact H|]. split; [exact Hw|].
  exact (proj1 (X9_wait_within_normalised_bounds Z P 9 600 k k' k'' 507
                  Hlo Hhi Hne H Hw)).
Defined.

(** X10.  The range is tight: after a successful load with a normalised
    [maxWait] below [ULONG_MAX], every value [v] between the normalised
    bounds, the upper one included, is what [random_wait] returns when the
    word it draws from the entropy pool is [v - minWait]. *)
Theorem X10_every_wait_in_range_is_drawn :
  forall (W : Type) (P : platform) (fuel fuel' : nat) (k k' : kernel W)
         (v : Z),
    is_ulong (minWait k) -> is_ulong (maxWait k) ->
    maxWait (normalized k) < ULONG_MAX ->
    slowdisk_init P fuel k = Ok 0 k' ->
    minWait (normalized k) <= v <= maxWait (normalized k) ->
    ulong (entropy P (drawn k')) = v - minWait (normalized k) ->
    (Z.to_nat v < fuel')%nat ->
    random_wait P fuel' k' = Ok v (delayed P k').
Proof.
  intros W P fuel fuel' k k' v Hlo Hhi Hlt H Hv He Hf.
  apply slowdisk_init_bounds in H. destruct H as [Hmin [Hmax _]].
  pose proof (normalized_ordered W k Hlo) as [Hord H1].
  set (lo := minWait (normalized k)) in *.
  set (hi := maxWait (normalized k)) in *.
  unfold ULONG_MAX in Hlt.
  assert (Hm : maxWait k' = hi + 1).
  { rewrite Hmax. apply ulong_small. unfold is_ulong, ULONG_MAX. lia. }
  assert (Hi : ulong (maxWait k' - minWait k') = hi + 1 - lo).
  { rewrite Hm, Hmin. apply ulong_small. unfold is_ulong, ULONG_MAX. lia. }
  assert (Hc : chosen_wait P k' = v).
  { unfold chosen_wait. rewrite Hi, He, Hmin.
    rewrite Z.mod_small by lia.
    replace (v - lo + lo) with v by lia.
    apply ulong_small. unfold is_ulong, ULONG_MAX. lia. }
  rewrite <- Hc at 1. apply random_wait_returns.
  - rewrite Hi. lia.
  - now rewrite Hc.
Qed.

Lemma X10_every_wait_witness :
  let P := x86_64 linux_base (fun _ => 500) in
  let k := loaded 500 1000 toy_mem in
  let k' := after_init P 9 k in
  is_ulong (minWait k) /\ is_ulong (maxWait k) /\
  maxWait (normalized k) < ULONG_MAX /\
  slowdisk_init P 9 k = Ok 0 k' /\
  minWait (normalized k) <= 1000 <= maxWait (normalized k) /\
  ulong (entropy P (drawn k')) = 1000 - minWait (normalized k) /\
  (Z.to_nat 1000 < 1001)%nat /\
  random_wait P 1001 k' = Ok 1000 (delayed P k').
Proof.
  intros P k k'.
  assert (Hlo : is_ulong (minWait k)) by (unfold is_ulong, ULONG_MAX; simpl; lia).
  assert (Hhi : is_ulong (maxWait k)) by (unfold is_ulong, ULONG_MAX; simpl; lia).
  assert (Hlt : maxWait (normalized k) < ULONG_MAX) by reflexivity.
  assert (H : slowdisk_init P 9 k = Ok 0 k') by (vm_compute; reflexivity).
  assert (Hv : minWait (normalized k) <= 1000 <= maxWait (normalized k))
    by (simpl; lia).
  assert (He : ulong (entropy P (drawn k')) = 1000 - minWait (normalized k))
    by (vm_compute; reflexivity).
  assert (Hf : (Z.to_nat 1000 < 1001)%nat) by lia.
  repeat (split; [assumption|]).
  exact (X10_every_wait_in_range_is_drawn Z P 9 1001 k k' 1000
           Hlo Hhi Hlt H Hv He Hf).
Defined.

(** X11.  On its own, [random_wait] samples the half-open interval of the
    globals as they stand: with [minWait < maxWait] a call that returns has
    returned a value [v] with [minWait <= v < maxWait], has drawn exactly
    one word from the entropy pool, and has left the module's globals,
    memory, CR0 and the rest of the system alone. *)
Theorem X11_random_wait_half_open :
  forall (W : Type) (P : platform) (fuel : nat) (k k' : kernel W) (v : Z),
    is_ulong (minWait k) -> is_ulong (maxWait k) ->
    minWait k < maxWait k ->
    random_wait P fuel k = Ok v k' ->
    minWait k <= v < maxWait k /\
    drawn k' = S (drawn k) /\
    same_globals k k' /\
    cr0 k' = cr0 k /\ mem k' = mem k /\ world k' = world k.
Proof.
  intros W P fuel k k' v Hlo Hhi Hlt H.
  apply random_wait_inv in H. destruct H as [_ [Hv Hk]]. subst.
  split; [now apply chosen_wait_bounds|].
  unfold same_globals. simpl. repeat split; reflexivity.
Qed.

Lemma X11_random_wait_witness :
  let P := x86_64 linux_base (fun _ => 7) in
  let k := loaded 2 6 toy_mem in
  let k' := state_of k (random_wait P 9 k) in
  is_ulong (minWait k) /\ is_ulong (maxWait k) /\
  minWait k < maxWait k /\
  random_wait P 9 k = Ok 5 k' /\
  2 <= 5 < 6.
Proof.
  intros P k k'.
  assert (Hlo : is_ulong (minWait k)) by (unfold is_ulong, ULONG_MAX; simpl; lia).
  assert (Hhi : is_ulong (maxWait k)) by (unfold is_ulong, ULONG_MAX; simpl; lia).
  assert (Hlt : minWait k < maxWait k) by reflexivity.
  assert (H : random_wait P 9 k = Ok 5 k') by (vm_compute; reflexivity).
  repeat (split; [assumption|]).
  exact (proj1 (X11_random_wait_half_open Z P 9 k k' 5 Hlo Hhi Hlt H)).
Defined.

(** ** The range check *)

(** X12.  Whatever the configured pair, the range check of lines 51-58
    leaves [0 <= minWait <= maxWait] and [maxWait >= 1], changes nothing but
    the two bounds, and is idempotent: run again on its own result it
    changes nothing.  A pair that is already ordered with a non-zero
    [maxWait] goes through as it is. *)
Theorem X12_range_check_invariant :
  forall (W : Type) (k : kernel W),
    exists k1,
      normalize_wait_range k = Ok tt k1 /\
      0 <= minWait k1 <= maxWait k1 /\ 1 <= maxWait k1 /\
      normalize_wait_range k1 = Ok tt k1 /\
      sys_call_table k1 = sys_call_table k /\
      orig_sys_write k1 = orig_sys_write k /\
      orig_sys_read k1 = orig_sys_read k /\
      same_machine k k1 /\
      ((minWait k <? 0) || (minWait k >? maxWait k) = false ->
       maxWait k <> 0 -> k1 = k).
Proof.
  intros W k. exists (normalized k).
  assert (Hord : 0 <= minWait (normalized k) <= maxWait (normalized k) /\
                 1 <= maxWait (normalized k)).
  { unfold normalized.
    destruct (minWait k <? 0) eqn:E0; simpl; [lia|].
    destruct (minWait k >? maxWait k) eqn:E1; simpl; [lia|].
    destruct (maxWait k =? 0) eqn:E2; simpl.
    - apply Z.eqb_eq in E2. lia.
    - apply Z.eqb_neq in E2. lia. }
  destruct Hord as [Hord H1].
  pose proof (normalized_frame W k) as [Ht [Hw [Hr Hm]]].
  split; [apply normalize_wait_range_eq|].
  split; [exact Hord|]. split; [exact H1|].
  split.
  { rewrite normalize_wait_range_eq. f_equal.
    apply normalized_valid; lia. }
  split; [exact Ht|]. split; [exact Hw|]. split; [exact Hr|].
  split; [exact Hm|].
  intros Hok Hz. unfold normalized. rewrite Hok.
  now rewrite (proj2 (Z.eqb_neq _ _) Hz).
Qed.

(** ** Hooked calls *)

Section Hooked.

Variable W : Type.
Variable exec : Z -> Z -> Z -> Z -> W -> Z * W.
Variable P : platform.

Implicit Types k : kernel W.

(** A hook is the delay followed by a call through the saved pointer. *)
Lemma write_hook_delays_then_calls (fuel : nat) (fd buf count : Z) k :
  ulong (maxWait k - minWait k) <> 0 ->
  (Z.to_nat (chosen_wait P k) < fuel)%nat ->
  write_hook exec P fuel fd buf count k
  = call exec (orig_sys_write k) fd buf count (delayed P k).
Proof.
  intros H Hf. unfold write_hook. unfold bind at 1.
  rewrite (random_wait_returns W P fuel k H Hf).
  reflexivity.
Qed.

Lemma write_hook_returns (fuel : nat) (fd buf count : Z) k :
  ulong (maxWait k - minWait k) <> 0 ->
  (Z.to_nat (chosen_wait P k) < fuel)%nat ->
  orig_sys_write k <> NULL ->
  write_hook exec P fuel fd buf count k
  = Ok (fst (exec (orig_sys_write k) fd buf count (world k)))
       (set_world (snd (exec (orig_sys_write k) fd buf count (world k)))
                  (delayed P k)).
Proof.
  intros H Hf Hnn. rewrite write_hook_delays_then_calls by assumption.
  unfold call. rewrite (proj2 (Z.eqb_neq _ _) Hnn). simpl.
  destruct (exec (orig_sys_write k) fd buf count (world k)); reflexivity.
Qed.

(** A hook is the delay followed by a call through the saved pointer. *)
Lemma read_hook_delays_then_calls (fuel : nat) (fd buf count : Z) k :
  ulong (maxWait k - minWait k) <> 0 ->
  (Z.to_nat (chosen_wait P k) < fuel)%nat ->
  read_hook exec P fuel fd buf count k
  = call exec (orig_sys_read k) fd buf count (delayed P k).
Proof.
  intros H Hf. unfold read_hook. unfold bind at 1.
  rewrite (random_wait_returns W P fuel k H Hf).
  reflexivity.
Qed.

Lemma read_hook_returns (fuel : nat) (fd buf count : Z) k :
  ulong (maxWait k - minWait k) <> 0 ->
  (Z.to_nat (chosen_wait P k) < fuel)%nat ->
  orig_sys_read k <> NULL ->
  read_hook exec P fuel fd buf count k
  = Ok (fst (exec (orig_sys_read k) fd buf count (world k)))
       (set_world (snd (exec (orig_sys_read k) fd buf count (world k)))
                  (delayed P k)).
Proof.
  intros H Hf Hnn. rewrite read_hook_delays_then_calls by assumption.
  unfold call. rewrite (proj2 (Z.eqb_neq _ _) Hnn). simpl.
  destruct (exec (orig_sys_read k) fd buf count (world k)); reflexivity.
Qed.

(** After a successful load the chosen wait never exceeds the normalised
    [maxWait], so fuel above that bound is fuel for the busy loop. *)
Lemma chosen_wait_after_init (fuel : nat) k0 k :
  is_ulong (minWait k0) -> is_ulong (maxWait k0) ->
  ~ (minWait k0 = 0 /\ maxWait k0 = ULONG_MAX) ->
  slowdisk_init P fuel k0 = Ok 0 k ->
  ulong (maxWait k - minWait k) <> 0 /\
  0 <= chosen_wait P k <= maxWait (normalized k0).
Proof.
  intros Hlo Hhi Hne H.
  pose proof (slowdisk_init_interval W P fuel k0 k Hlo Hhi Hne H) as Hi.
  assert (Hnz : ulong (maxWait k - minWait k) <> 0) by lia.
  split; [exact Hnz|].
  pose proof (random_wait_returns W P (S (Z.to_nat (chosen_wait P k))) k
                Hnz ltac:(lia)) as Hr.
  pose proof (slowdisk_init_wait_in_range W P fuel _ k0 k _ _
                Hlo Hhi Hne H Hr) as Hb.
  pose proof (chosen_wait_range W P k) as Hc. unfold is_ulong in Hc. lia.
Qed.

(** The handlers a successful load saves are the table's entries at the
    time of the load, and the load leaves the rest of the system alone. *)
Lemma slowdisk_init_saved (fuel : nat) k0 k :
  slowdisk_init P fuel k0 = Ok 0 k ->
  orig_sys_write k = mem k0 (slot (sys_call_table k) (__NR_write P)) /\
  orig_sys_read k = mem k0 (slot (sys_call_table k) (__NR_read P)) /\
  world k = world k0 /\ sys_call_table k <> NULL.
Proof.
  intros H. apply slowdisk_init_inv in H.
  destruct H as [k2 [Hg [[_ [H _]]|[Ht [_ Hk]]]]]; [discriminate|].
  apply get_syscall_table_frame in Hg.
  pose proof (normalized_frame W k0) as [_ [_ [_ [_ [_ [_ [_ Hw]]]]]]].
  rewrite Hk. simpl. rewrite Hg. simpl. rewrite normalized_mem.
  repeat split; try reflexivity.
  - exact Hw.
  - rewrite Hg in Ht. exact Ht.
Qed.

End Hooked.

(** X13.  A call that goes through a hook after a successful load is the
    call the table would have made before the load: [write_hook] is the
    delay followed by a call through what the load found in the write slot,
    on the same [(fd, buf, count)], so that, the entry not being [NULL], it
    returns what that handler returns and leaves the rest of the system as
    that handler leaves it (and faults as a call through the entry does
    when the entry is [NULL]); likewise [read_hook] with the read slot.
    (Any configuration but [minWait=0], [maxWait=ULONG_MAX]; fuel above the
    normalised [maxWait].) *)
Theorem X13_hooked_call_is_the_original_call :
  forall (W : Type) (exec : Z -> Z -> Z -> Z -> W -> Z * W) (P : platform)
         (fuel fuel' : nat) (fd buf count : Z) (k0 k : kernel W),
    is_ulong (minWait k0) -> is_ulong (maxWait k0) ->
    ~ (minWait k0 = 0 /\ maxWait k0 = ULONG_MAX) ->
    slowdisk_init P fuel k0 = Ok 0 k ->
    (Z.to_nat (maxWait (normalized k0)) < fuel')%nat ->
    let old_write := mem k0 (slot (sys_call_table k) (__NR_write P)) in
    let old_read := mem k0 (slot (sys_call_table k) (__NR_read P)) in
    (old_write <> NULL ->
     exists k',
       write_hook exec P fuel' fd buf count k
       = Ok (fst (exec old_write fd buf count (world k0))) k' /\
       world k' = snd (exec old_write fd buf count (world k0))) /\
    (old_read <> NULL ->
     exists k',
       read_hook exec P fuel' fd buf count k
       = Ok (fst (exec old_read fd buf count (world k0))) k' /\
       world k' = snd (exec old_read fd buf count (world k0))) /\
    write_hook exec P fuel' fd buf count k
    = call exec old_write fd buf count (delayed P k) /\
    read_hook exec P fuel' fd buf count k
    = call exec old_read fd buf count (delayed P k) /\
    world (delayed P k) = world k0.
Proof.
  intros W exec P fuel fuel' fd buf count k0 k Hlo Hhi Hne H Hf ow or.
  destruct (chosen_wait_after_init W P fuel k0 k Hlo Hhi Hne H) as [Hnz Hc].
  destruct (slowdisk_init_saved W P fuel k0 k H) as [Hw [Hr [Hwd _]]].
  assert (Hf' : (Z.to_nat (chosen_wait P k) < fuel')%nat) by lia.
  unfold ow, or. rewrite <- Hw, <- Hr, <- Hwd.
  split; [|split; [|split; [|split]]].
  - intros Hnn. eexists.
    split; [apply write_hook_returns; assumption|]. reflexivity.
  - intros Hnn. eexists.
    split; [apply read_hook_returns; assumption|]. reflexivity.
  - now apply write_hook_delays_then_calls.
  - now apply read_hook_delays_then_calls.
  - reflexivity.
Qed.

Lemma X13_hooked_call_witness :
  let P := x86_64 linux_base (fun _ => 7) in
  let k0 := loaded 2 6 toy_mem in
  let k := after_init P 9 k0 in
  is_ulong (minWait k0) /\ is_ulong (maxWait k0) /\
  ~ (minWait k0 = 0 /\ maxWait k0 = ULONG_MAX) /\
  slowdisk_init P 9 k0 = Ok 0 k /\
  (Z.to_nat (maxWait (normalized k0)) < 9)%nat /\
  mem k0 (slot (sys_call_table k) (__NR_write P)) <> NULL /\
  exists k',
    write_hook toy_exec P 9 1 4096 100 k = Ok 100 k' /\ world k' = 100.
Proof.
  intros P k0 k.
  assert (Hlo : is_ulong (minWait k0)) by (unfold is_ulong, ULONG_MAX; simpl; lia).
  assert (Hhi : is_ulong (maxWait k0)) by (unfold is_ulong, ULONG_MAX; simpl; lia).
  assert (Hne : ~ (minWait k0 = 0 /\ maxWait k0 = ULONG_MAX)) by (simpl; lia).
  assert (H : slowdisk_init P 9 k0 = Ok 0 k) by (vm_compute; reflexivity).
  assert (Hf : (Z.to_nat (maxWait (normalized k0)) < 9)%nat) by (simpl; lia).
  assert (Hnn : mem k0 (slot (sys_call_table k) (__NR_write P)) <> NULL)
    by (vm_compute; discriminate).
  repeat (split; [assumption|]).
  exact (proj1 (X13_hooked_call_is_the_original_call Z toy_exec P 9 9 1 4096 100
                  k0 k Hlo Hhi Hne H Hf) Hnn).
Defined.

(** ** Unloading *)



(** X16.  On any state with a table pointer that is not [NULL],
    [slowdisk_exit] writes two words and nothing else: the read slot gets
    [orig_sys_read], the write slot (when it is a different word)
    [orig_sys_write]; the other words of memory, CR0, the module's globals
    (the table pointer is not cleared, [maxWait] is not decremented) and
    the rest of the machine are as before. *)
Theorem X16_exit_writes_two_words :
  forall (W : Type) (P : platform) (k : kernel W),
    sys_call_table k <> NULL ->
    let t := sys_call_table k in
    exists k',
      slowdisk_exit P k = Ok tt k' /\
      mem k' (slot t (__NR_read P)) = orig_sys_read k /\
      (slot t (__NR_write P) <> slot t (__NR_read P) ->
       mem k' (slot t (__NR_write P)) = orig_sys_write k) /\
      (forall a, a <> slot t (__NR_read P) -> a <> slot t (__NR_write P) ->
                 mem k' a = mem k a) /\
      same_globals k k' /\
      cr0 k' = cr0 k /\ drawn k' = drawn k /\ spun k' = spun k /\
      world k' = world k.
Proof.
  intros W P k Hnn t. exists (unhooked P k).
  split; [now apply slowdisk_exit_eq|].
  unfold unhooked, same_globals, t. simpl.
  split; [apply poke_same|].
  split.
  { intros Hne. rewrite poke_other by exact Hne. apply poke_same. }
  split.
  { intros a Hr Hw. now rewrite !poke_other by assumption. }
  repeat split; reflexivity.
Qed.

Lemma X16_exit_witness :
  let P := x86_64 linux_base (fun _ => 7) in
  let k := after_init P 9 (loaded 500 1000 toy_mem) in
  sys_call_table k <> NULL /\
  exists k',
    slowdisk_exit P k = Ok tt k' /\
    mem k' (slot (sys_call_table k) (__NR_read P)) = orig_sys_read k.
Proof.
  intros P k.
  assert (Hnn : sys_call_table k <> NULL) by (vm_compute; discriminate).
  split; [exact Hnn|].
  destruct (X16_exit_writes_two_words Z P k Hnn) as [k' [He [Hr _]]].
  exists k'. split; [exact He | exact Hr].
Defined.

(** ** Loading again *)

Section Reload.

Variable W : Type.
Variable P : platform.

Implicit Types k : kernel W.

(** The normalised bounds only depend on the configured bounds. *)
Lemma normalized_bounds_of k (j : kernel W) :
  minWait j = minWait k -> maxWait j = maxWait k ->
  minWait (normalized j) = minWait (normalized k) /\
  maxWait (normalized j) = maxWait (normalized k).
Proof.
  intros Hlo Hhi. unfold normalized. rewrite Hlo, Hhi.
  destruct ((minWait k <? 0) || (minWait k >? maxWait k)); simpl; auto.
  destruct (maxWait k =? 0); simpl; auto.
Qed.

End Reload.

(** X15.  A reload cycle ends where the first load ended: after a
    successful load and [slowdisk_exit], loading the module afresh with the
    same parameters (statics reset, machine as the unload left it) returns
    0 again with the same table pointer, the same saved handlers, the same
    bounds and the same patched memory. *)
Theorem X15_reload_cycle :
  forall (W : Type) (P : platform) (fuel : nat) (k0 k1 k2 : kernel W),
    is_ulong (PAGE_OFFSET P) ->
    slowdisk_init P fuel k0 = Ok 0 k1 ->
    slowdisk_exit P k1 = Ok tt k2 ->
    exists k3,
      slowdisk_init P fuel (reloaded (minWait k0) (maxWait k0) k2) = Ok 0 k3 /\
      sys_call_table k3 = sys_call_table k1 /\
      orig_sys_write k3 = orig_sys_write k1 /\
      orig_sys_read k3 = orig_sys_read k1 /\
      minWait k3 = minWait k1 /\ maxWait k3 = maxWait k1 /\
      forall a, mem k3 a = mem k1 a.
Proof.
  intros W P fuel k0 k1 k2 Hr H He.
  pose proof (slowdisk_init_exit_mem W P fuel k0 k1) as Hm.
  destruct (slowdisk_init_saved W P fuel k0 k1 H) as [_ [_ [_ Hnn]]].
  rewrite (slowdisk_exit_eq W P k1 Hnn) in He. inversion He as [Hk2].
  destruct (slowdisk_init_ok_inv W P fuel k0 k1 Hr H) as [n [Hn [Hfa Hk1]]].
  set (kr := reloaded (minWait k0) (maxWait k0) (unhooked P k1)).
  assert (Hmr : forall a, mem kr a = mem k0 a).
  { intros a. unfold kr. simpl. exact (Hm a H). }
  assert (Hfr : first_anchor P (mem kr) (PAGE_OFFSET P) n).
  { apply (first_anchor_ext P (mem k0)); [|exact Hfa].
    intros j _. apply Hmr. }
  destruct (normalized_bounds_of W k0 kr eq_refl eq_refl) as [Hlo Hhi].
  eexists. split; [exact (slowdisk_init_complete W P n fuel kr Hr Hfr Hn)|].
  rewrite Hk1. simpl.
  rewrite !normalized_mem. rewrite !Hmr. rewrite Hlo, Hhi.
  repeat split; try reflexivity.
  intros a. unfold poke.
  destruct (a =? slot (candidate (PAGE_OFFSET P) n) (__NR_read P));
    [reflexivity|].
  destruct (a =? slot (candidate (PAGE_OFFSET P) n) (__NR_write P));
    [reflexivity|].
  apply Hmr.
Qed.

Lemma X15_reload_witness :
  let P := x86_64 linux_base (fun _ => 7) in
  let k0 := loaded 500 1000 toy_mem in
  let k1 := after_init P 9 k0 in
  let k2 := state_of k1 (slowdisk_exit P k1) in
  is_ulong (PAGE_OFFSET P) /\
  slowdisk_init P 9 k0 = Ok 0 k1 /\
  slowdisk_exit P k1 = Ok tt k2 /\
  exists k3,
    slowdisk_init P 9 (reloaded (minWait k0) (maxWait k0) k2) = Ok 0 k3 /\
    sys_call_table k3 = sys_call_table k1.
Proof.
  intros P k0 k1 k2.
  assert (Hr : is_ulong (PAGE_OFFSET P)) by exact linux_base_ulong.
  assert (H : slowdisk_init P 9 k0 = Ok 0 k1) by (vm_compute; reflexivity).
  assert (He : slowdisk_exit P k1 = Ok tt k2) by (vm_compute; reflexivity).
  repeat (split; [assumption|]).
  destruct (X15_reload_cycle Z P 9 k0 k1 k2 Hr H He) as [k3 [Hi [Ht _]]].
  exists k3. split; [exact Hi | exact Ht].
Defined.

(** X17.  The patch does not blind the locator: when neither hook lives at
    the address of [sys_close] and the anchor slot of the table is neither
    its read nor its write slot, a [get_syscall_table] run on the state a
    successful load left finds the same table again and changes nothing. *)
Theorem X17_locator_finds_patched_table :
  forall (W : Type) (P : platform) (fuel : nat) (k0 k : kernel W),
    is_ulong (PAGE_OFFSET P) ->
    slowdisk_init P fuel k0 = Ok 0 k ->
    read_hook_addr P <> sys_close P ->
    write_hook_addr P <> sys_close P ->
    slot (sys_call_table k) (__NR_close P)
    <> slot (sys_call_table k) (__NR_read P) ->
    slot (sys_call_table k) (__NR_close P)
    <> slot (sys_call_table k) (__NR_write P) ->
    get_syscall_table P fuel k = Ok tt k.
Proof.
  intros W P fuel k0 k Hr H Hrh Hwh Hcr Hcw.
  destruct (slowdisk_init_ok_inv W P fuel k0 k Hr H) as [n [Hn [Hfa Hk]]].
  assert (Ht : sys_call_table k = candidate (PAGE_OFFSET P) n)
    by (rewrite Hk; reflexivity).
  rewrite Ht in Hcr, Hcw.
  assert (Hmem : mem k
                 = poke (slot (candidate (PAGE_OFFSET P) n) (__NR_read P))
                     (read_hook_addr P)
                     (poke (slot (candidate (PAGE_OFFSET P) n) (__NR_write P))
                        (write_hook_addr P) (mem k0))).
  { rewrite Hk. simpl. now rewrite normalized_mem. }
  assert (Hfk : first_anchor P (mem k) (PAGE_OFFSET P) n).
  { destruct Hfa as [Hc [Hno Hyes]]. split; [exact Hc|]. split.
    - intros j Hj. rewrite Hmem. unfold poke.
      destruct (_ =? slot (candidate (PAGE_OFFSET P) n) (__NR_read P));
        [exact Hrh|].
      destruct (_ =? slot (candidate (PAGE_OFFSET P) n) (__NR_write P));
        [exact Hwh|].
      now apply Hno.
    - rewrite Hmem. rewrite !poke_other by assumption. exact Hyes. }
  rewrite (get_syscall_table_complete W P n fuel k Hr Hfk Hn).
  rewrite <- Ht. now rewrite set_sys_call_table_same.
Qed.

Lemma X17_locator_patched_witness :
  let P := x86_64 linux_base (fun _ => 7) in
  let k0 := loaded 500 1000 toy_mem in
  let k := after_init P 9 k0 in
  is_ulong (PAGE_OFFSET P) /\
  slowdisk_init P 9 k0 = Ok 0 k /\
  read_hook_addr P <> sys_close P /\
  write_hook_addr P <> sys_close P /\
  slot (sys_call_table k) (__NR_close P)
  <> slot (sys_call_table k) (__NR_read P) /\
  slot (sys_call_table k) (__NR_close P)
  <> slot (sys_call_table k) (__NR_write P) /\
  get_syscall_table P 9 k = Ok tt k.
Proof.
  intros P k0 k.
  assert (Hr : is_ulong (PAGE_OFFSET P)) by exact linux_base_ulong.
  assert (H : slowdisk_init P 9 k0 = Ok 0 k) by (vm_compute; reflexivity).
  assert (Hrh : read_hook_addr P <> sys_close P) by (vm_compute; discriminate).
  assert (Hwh : write_hook_addr P <> sys_close P) by (vm_compute; discriminate).
  assert (Hcr : slot (sys_call_table k) (__NR_close P)
                <> slot (sys_call_table k) (__NR_read P))
    by (vm_compute; discriminate).
  assert (Hcw : slot (sys_call_table k) (__NR_close P)
                <> slot (sys_call_table k) (__NR_write P))
    by (vm_compute; discriminate).
  repeat (split; [assumption|]).
  exact (X17_locator_finds_patched_table Z P 9 k0 k Hr H Hrh Hwh Hcr Hcw).
Defined.
